(** * Content Factory: the Helmar CEO agent and the Content Manager

    A shallow embedding of
      - [src/config/autonomy-rules.ts]   (rule lists and thresholds),
      - [src/agents/ceo/helmar.ts]       (class [HelmarCEO]),
      - [src/agents/managers/content.ts] (class [ContentManager]),
      - [src/orchestrator.ts]            (routes, schedules, start and stop),
      - [src/types/agent-types.ts]       (the records they exchange),
    followed by the properties of the dispatch core that hold of them.

    Conventions.
      - A JavaScript [number] is a member of a type [num] carrying the
        operations of the class [JsNumber].  Two instances are given:
        IEEE-754 binary64 ([float], what the engine computes) and exact
        rationals ([Q], in which the arithmetic statements are phrased).
      - A [Date] is its time value, an integer number of milliseconds.
      - [uuidv4()], [new Date()], [Date.now()] and [Math.random()] are
        inputs of the operation that calls them.
      - Strings are sequences of 8-bit characters; [toLowerCase] folds the
        letters A-Z, which is what it does on ASCII text.
      - Log messages are kept without their leading pictograph. *)

From Stdlib Require Import ZArith QArith Qminmax Qround Lqa Lia Floats Uint63 Ascii.
From stdpp Require Import base list strings pretty.

Set Warnings "-inexact-float".
Local Open Scope string_scope.
Local Open Scope list_scope.

(* ===================================================================== *)
(** ** JavaScript numbers *)
(* ===================================================================== *)

Declare Scope js_scope.
Delimit Scope js_scope with js.

Class JsNumber (num : Type) := {
  (** the value denoted by a decimal literal of the source text *)
  lit : Q -> num;
  num_add : num -> num -> num;
  num_sub : num -> num -> num;
  num_mul : num -> num -> num;
  num_div : num -> num -> num;
  Math_min : num -> num -> num
}.

Infix "+" := num_add : js_scope.
Infix "-" := num_sub : js_scope.
Infix "*" := num_mul : js_scope.
Infix "/" := num_div : js_scope.

(** [x++] on a numeric field. *)
Definition incr {num} `{JsNumber num} (x : num) : num := (x + lit 1)%js.

(** The time value of a [Date], or the result of [Date.now()], as a number. *)
Definition of_time {num} `{JsNumber num} (t : Z) : num := lit (inject_Z t).

(** Exact arithmetic. *)
#[export] Instance JsNumber_Q : JsNumber Q := {
  lit q := q;
  num_add := Qplus;
  num_sub := Qminus;
  num_mul := Qmult;
  num_div := Qdiv;
  Math_min := Qmin
}.

(** [Math.floor], and the reading of a number as an array index: [xs[k]]
    is an element of [xs] only when [k] is an integer from 0 to 2^32 - 2,
    and [undefined] for every other number. *)
Class JsFloor (num : Type) := {
  Math_floor : num -> num;
  array_index : num -> option nat
}.

Definition index_of_Z (k : Z) : option nat :=
  if ((0 <=? k) && (k <? 2 ^ 32 - 1))%Z then Some (Z.to_nat k) else None.

#[export] Instance JsFloor_Q : JsFloor Q := {
  Math_floor q := inject_Z (Qfloor q);
  array_index q :=
    if (Qnum q mod Zpos (Qden q) =? 0)%Z
    then index_of_Z (Qnum q / Zpos (Qden q)) else None
}.

Module F64.

(** Integers enter binary64 through the primitive conversion, which is
    exact below 2^53. *)
Definition of_Z (z : Z) : float :=
  match z with
  | Z0 => PrimFloat.zero
  | Zpos _ => PrimFloat.of_uint63 (Uint63.of_Z z)
  | Zneg p => PrimFloat.opp (PrimFloat.of_uint63 (Uint63.of_Z (Zpos p)))
  end.

(** A decimal literal [n/d] is read as the double nearest to it; a
    correctly rounded division of two exact integers is that double. *)
Definition of_Q (q : Q) : float :=
  PrimFloat.div (of_Z (Qnum q)) (of_Z (Zpos (Qden q))).

(** [Math.min]: NaN if either argument is NaN, and -0 below +0. *)
Definition min (a b : float) : float :=
  if PrimFloat.is_nan a || PrimFloat.is_nan b then PrimFloat.nan
  else if PrimFloat.ltb a b then a
  else if PrimFloat.ltb b a then b
  else if PrimFloat.get_sign a then a else b.

(** [Math.floor]: a double whose exponent is not negative is an integer
    already; otherwise the mantissa [m] of [m * 2^e] is cut at the binary
    point, downwards.  Zeros (with their sign), infinities and NaN are
    returned as they are. *)
Definition floor (x : float) : float :=
  match Prim2SF x with
  | S754_finite s m e =>
      if (0 <=? e)%Z then x
      else
        let k := Z.shiftr (Zpos m) (- e) in
        let whole := (Z.shiftl k (- e) =? Zpos m)%Z in
        if s then PrimFloat.opp (of_Z (if whole then k else k + 1))
        else of_Z k
  | _ => x
  end.

(** The array index a double denotes when it is used as a property key:
    an integer from 0 to 2^32 - 2, with -0 read as 0. *)
Definition index (x : float) : option nat :=
  match Prim2SF x with
  | S754_zero _ => Some 0%nat
  | S754_finite false m e =>
      if (0 <=? e)%Z then
        if (e <? 32)%Z then index_of_Z (Z.shiftl (Zpos m) e) else None
      else
        let k := Z.shiftr (Zpos m) (- e) in
        if (Z.shiftl k (- e) =? Zpos m)%Z then index_of_Z k else None
  | _ => None
  end.

End F64.

#[export] Instance JsNumber_float : JsNumber float := {
  lit := F64.of_Q;
  num_add := PrimFloat.add;
  num_sub := PrimFloat.sub;
  num_mul := PrimFloat.mul;
  num_div := PrimFloat.div;
  Math_min := F64.min
}.

#[export] Instance JsFloor_float : JsFloor float := {
  Math_floor := F64.floor;
  array_index := F64.index
}.

(* ===================================================================== *)
(** ** Strings: [toLowerCase] and [includes] *)
(* ===================================================================== *)

Definition lower_ascii (c : ascii) : ascii :=
  let n := N_of_ascii c in
  if ((65 <=? n) && (n <=? 90))%N then ascii_of_N (n + 32) else c.

Fixpoint toLowerCase (s : string) : string :=
  match s with
  | EmptyString => EmptyString
  | String c s' => String (lower_ascii c) (toLowerCase s')
  end.

(** [s.includes(search)]: [search] occurs in [s] at some position. *)
Fixpoint includes (s search : string) : bool :=
  String.prefix search s ||
  match s with
  | EmptyString => false
  | String _ s' => includes s' search
  end.

(** [xs.some(p)] *)
Definition some {A} (p : A -> bool) (xs : list A) : bool := existsb p xs.

(* ===================================================================== *)
(** ** config/autonomy-rules.ts *)
(* ===================================================================== *)

Record HelmarAutonomy := {
  canDecideAutonomously_rules : list string;
  requiresApproval : list string;
  mustReport : list string
}.

Definition HELMAR_AUTONOMY_RULES : HelmarAutonomy := {|
  canDecideAutonomously_rules := [
    "Daily content themes and topics";
    "Budget allocation under $1000";
    "Team task assignment and prioritization";
    "Performance optimization strategies";
    "Content scheduling and publishing";
    "A/B testing experiments";
    "Resource allocation across departments";
    "Minor workflow adjustments";
    "Social media engagement responses";
    "Content format selection";
    "Posting frequency optimization";
    "Audience targeting refinements" ];
  requiresApproval := [
    "Major strategy pivots or business model changes";
    "Budget expenditure over $1000";
    "New market or platform entry";
    "Staff restructuring or role changes";
    "Partnership agreements and collaborations";
    "Brand guidelines major modifications";
    "Legal compliance deviations";
    "Product pricing changes";
    "Market expansion strategies";
    "Technology stack modifications" ];
  mustReport := [
    "Daily performance metrics and KPIs";
    "Revenue and expense summaries";
    "Department status updates";
    "System errors and resolutions";
    "Content performance analytics";
    "Budget utilization reports";
    "Security incidents or breaches";
    "Customer feedback and complaints";
    "Competitive analysis insights";
    "Strategic recommendations" ]
|}.

Record DecisionThresholds (num : Type) := {
  BUDGET_LIMIT : num;
  REVENUE_DROP_ALERT : num;
  SYSTEM_UPTIME_MINIMUM : num;
  TASK_SUCCESS_RATE_MINIMUM : num;
  RESPONSE_TIME_MAXIMUM : num;
  CONTENT_QUALITY_MINIMUM : num;
  ENGAGEMENT_RATE_MINIMUM : num
}.
Arguments BUDGET_LIMIT {num} _.
Arguments REVENUE_DROP_ALERT {num} _.
Arguments SYSTEM_UPTIME_MINIMUM {num} _.
Arguments TASK_SUCCESS_RATE_MINIMUM {num} _.
Arguments RESPONSE_TIME_MAXIMUM {num} _.
Arguments CONTENT_QUALITY_MINIMUM {num} _.
Arguments ENGAGEMENT_RATE_MINIMUM {num} _.

Definition DECISION_THRESHOLDS {num} `{JsNumber num} : DecisionThresholds num := {|
  BUDGET_LIMIT := lit 1000;
  REVENUE_DROP_ALERT := lit 0.2;
  SYSTEM_UPTIME_MINIMUM := lit 0.999;
  TASK_SUCCESS_RATE_MINIMUM := lit 0.95;
  RESPONSE_TIME_MAXIMUM := lit 300000;
  CONTENT_QUALITY_MINIMUM := lit 8;
  ENGAGEMENT_RATE_MINIMUM := lit 0.03
|}.

(** The two targets of [CONTENT_TARGETS] and [BUSINESS_TARGETS] that the
    agent reads. *)
Definition CONTENT_TARGETS_DAILY_POSTS {num} `{JsNumber num} : num := lit 10.
Definition BUSINESS_TARGETS_MONTHLY_REVENUE {num} `{JsNumber num} : num := lit 50000.

(** [HelmarCEO.canDecideAutonomously] (helmar.ts, 207-211); the field
    [autonomyRules] is initialised to [HELMAR_AUTONOMY_RULES] and never
    reassigned. *)
Definition canDecideAutonomously (action : string) : bool :=
  some (fun rule => includes (toLowerCase action) (toLowerCase rule))
       (canDecideAutonomously_rules HELMAR_AUTONOMY_RULES).

(** "[action] matches an entry of the rule set [rules] (substring match,
    case-insensitive)", for any of the three rule sets. *)
Definition matches (rules : list string) (action : string) : bool :=
  some (fun rule => includes (toLowerCase action) (toLowerCase rule)) rules.

(* ===================================================================== *)
(** ** types/agent-types.ts *)
(* ===================================================================== *)

Inductive Department := content | production | distribution | revenue.
Inductive PriorityLevel := high | medium | low.
Inductive TaskStatus := pending | in_progress | completed | blocked.
Inductive AgentStatus := online | offline | busy.
Inductive Severity := sev_critical | sev_high | sev_medium | sev_low.
Inductive IssueStatus := open | issue_in_progress | resolved.


Module DepartmentTask.
Record t := mk {
  department : Department;
  taskId : string;
  description : string;
  priority : PriorityLevel;
  deadline : Z;
  assignedTo : string;
  status : TaskStatus
}.
(** [task.status = s] *)
Definition set_status (s : TaskStatus) (task : t) : t :=
  mk (department task) (taskId task) (description task) (priority task)
     (deadline task) (assignedTo task) s.
End DepartmentTask.

Module PerformanceMetrics.
Record t (num : Type) := mk {
  tasksCompleted : num;
  tasksTotal : num;
  successRate : num;
  systemUptime : num;
  responseTime : num
}.
Arguments mk {num} _ _ _ _ _.
Arguments tasksCompleted {num} _.
Arguments tasksTotal {num} _.
Arguments successRate {num} _.
Arguments systemUptime {num} _.
Arguments responseTime {num} _.
End PerformanceMetrics.

Module DepartmentManager.
Record t (num : Type) := mk {
  name : string;
  department : string;
  status : AgentStatus;
  currentTasks : list DepartmentTask.t;
  performance : PerformanceMetrics.t num;
  lastUpdate : Z
}.
Arguments mk {num} _ _ _ _ _ _.
Arguments name {num} _.
Arguments department {num} _.
Arguments status {num} _.
Arguments currentTasks {num} _.
Arguments performance {num} _.
Arguments lastUpdate {num} _.
End DepartmentManager.

Module Issue.
Record t := mk {
  id : string;
  severity : Severity;
  description : string;
  department : string;
  status : IssueStatus;
  reportedAt : Z;
  resolvedAt : option Z
}.
End Issue.

Module Achievement.
Record t (num : Type) := mk {
  id : string;
  type : string;
  description : string;
  value : num;
  date : Z
}.
Arguments mk {num} _ _ _ _ _.
Arguments date {num} _.
End Achievement.

Module Strategy.
Record t (num : Type) := mk {
  id : string;
  name : string;
  description : string;
  objectives : list string;
  timeline : string;
  budget : num;
  expectedROI : num;
  risks : list string;
  success_metrics : list string
}.
Arguments mk {num} _ _ _ _ _ _ _ _ _.
Arguments name {num} _.
Arguments budget {num} _.
End Strategy.

Module BudgetAllocation.
Record t (num : Type) := mk {
  total : num;
  content : num;
  production : num;
  distribution : num;
  marketing : num;
  operations : num
}.
Arguments mk {num} _ _ _ _ _ _.
Arguments total {num} _.
Arguments content {num} _.
Arguments production {num} _.
Arguments distribution {num} _.
Arguments marketing {num} _.
Arguments operations {num} _.
End BudgetAllocation.

Inductive Trend := up | down | stable.
Inductive Importance := imp_critical | imp_high | imp_medium | imp_low.
Inductive PriorityStatus := prio_pending | prio_in_progress | prio_completed.

Module KPI.
Record t (num : Type) := mk {
  name : string;
  current : num;
  target : num;
  unit : string;
  trend : Trend
}.
Arguments mk {num} _ _ _ _ _.
End KPI.

Module Priority.
Record t := mk {
  id : string;
  description : string;
  importance : Importance;
  deadline : Z;
  status : PriorityStatus
}.
End Priority.

Module DailyPlan.
Record t (num : Type) := mk {
  date : Z;
  contentThemes : list string;
  budgetAllocation : BudgetAllocation.t num;
  departmentTasks : list DepartmentTask.t;
  kpis : list (KPI.t num);
  priorities : list Priority.t
}.
Arguments mk {num} _ _ _ _ _ _.
Arguments date {num} _.
Arguments contentThemes {num} _.
Arguments budgetAllocation {num} _.
Arguments departmentTasks {num} _.
Arguments kpis {num} _.
Arguments priorities {num} _.
End DailyPlan.

Module DailyReport.
(** The constant [revenue] and [content] blocks of the report are left out. *)
Record t (num : Type) := mk {
  date : Z;
  performance : PerformanceMetrics.t num;
  issues : list Issue.t;
  achievements : list (Achievement.t num);
  tomorrowsPlan : list string
}.
Arguments mk {num} _ _ _ _ _.
Arguments performance {num} _.
Arguments issues {num} _.
Arguments achievements {num} _.
Arguments tomorrowsPlan {num} _.
End DailyReport.

(* ===================================================================== *)
(** ** Methods as state transformers that may throw *)
(* ===================================================================== *)

(** How a call ends.  A thrown value is kept as its message. *)
Inductive outcome (A : Type) :=
  | Returned (a : A)
  | Thrown (error : string).
Arguments Returned {A} _.
Arguments Thrown {A} _.

(** A method of an object of state [St]: the mutations made before a
    throw stay made. *)
Definition Proc (St A : Type) : Type := St -> St * outcome A.

Definition ret {St A} (a : A) : Proc St A := fun s => (s, Returned a).

Definition bind {St A B} (m : Proc St A) (k : A -> Proc St B) : Proc St B :=
  fun s =>
    match m s with
    | (s', Returned a) => k a s'
    | (s', Thrown e) => (s', Thrown e)
    end.

(** [try { body } catch (error) { handler(error) }] *)
Definition try_catch {St A} (body : Proc St A) (handler : string -> Proc St A)
  : Proc St A :=
  fun s =>
    match body s with
    | (s', Returned a) => (s', Returned a)
    | (s', Thrown e) => handler e s'
    end.

(** [for (const x of xs) { body(x) }] *)
Fixpoint for_of {St A} (xs : list A) (body : A -> Proc St unit) : Proc St unit :=
  match xs with
  | [] => ret tt
  | x :: xs' => bind (body x) (fun _ => for_of xs' body)
  end.

Notation "m ;; k" := (bind m (fun _ => k)) : js_scope.

(** Records handed to the winston logger. *)
Inductive LogLevel := info | error.
Record LogRecord := {
  level : LogLevel;
  message : string;
  meta : option string
}.

(* ===================================================================== *)
(** ** agents/ceo/helmar.ts *)
(* ===================================================================== *)

Module HelmarCEO.
Section WithNumbers.
Context {num : Type} `{JsNumber num}.

(** The fields of the class.  [departments] is a [Map], which iterates
    in insertion order; [logger] is the list of records it was handed. *)
Record t := mk {
  departments : list (string * DepartmentManager.t num);
  currentStrategy : option (Strategy.t num);
  dailyPlan : option (DailyPlan.t num);
  issues : list Issue.t;
  achievements : list (Achievement.t num);
  startTime : Z;
  logger : list LogRecord
}.

Definition log (l : LogLevel) (msg : string) (m : option string) : Proc t unit :=
  fun s => (mk (departments s) (currentStrategy s) (dailyPlan s) (issues s)
               (achievements s) (startTime s)
               (logger s ++ [Build_LogRecord l msg m]),
            Returned tt).

Definition set_currentStrategy (st : Strategy.t num) : Proc t unit :=
  fun s => (mk (departments s) (Some st) (dailyPlan s) (issues s)
               (achievements s) (startTime s) (logger s), Returned tt).

Definition set_dailyPlan (plan : DailyPlan.t num) : Proc t unit :=
  fun s => (mk (departments s) (currentStrategy s) (Some plan) (issues s)
               (achievements s) (startTime s) (logger s), Returned tt).

(** [initializeDepartments] *)
Definition initializeDepartments (now : Z)
  : list (string * DepartmentManager.t num) :=
  map (fun dept =>
         (dept,
          DepartmentManager.mk dept dept online []
            (PerformanceMetrics.mk (lit 0) (lit 0) (lit 0) (lit 1) (lit 0))
            now))
      ["content"; "production"; "distribution"; "revenue"].

(** [new HelmarCEO()] at time [now] *)
Definition new (now : Z) : t :=
  mk (initializeDepartments now) None None [] [] now
     [ Build_LogRecord info "Helmar CEO Agent initialized" None;
       Build_LogRecord info "Initialized 4 department managers" None ].

(** [analyzePerformance] (355-365); [now1] and [now2] are the two
    readings of [Date.now()], in evaluation order. *)
Definition analyzePerformance (this : t) (now1 now2 : Z)
  : PerformanceMetrics.t num :=
  let uptime :=
    ((of_time now1 - of_time (startTime this))
     / (of_time now2 - of_time (startTime this) + lit 1000))%js in
  PerformanceMetrics.mk (lit 45) (lit 50) (lit 0.9)
                        (Math_min uptime (lit 1)) (lit 150).

(** [calculateBudgetAllocation] (235-246) *)
Definition calculateBudgetAllocation : BudgetAllocation.t num :=
  let totalBudget := Math_min (BUDGET_LIMIT DECISION_THRESHOLDS) (lit 800) in
  BudgetAllocation.mk
    totalBudget
    (totalBudget * lit 0.3)%js
    (totalBudget * lit 0.25)%js
    (totalBudget * lit 0.25)%js
    (totalBudget * lit 0.15)%js
    (totalBudget * lit 0.05)%js.

(** [selectContentThemes] (216-230): the first four of the eight themes. *)
Definition selectContentThemes : list string :=
  take 4 [ "AI & Technology"; "Business Growth"; "Productivity Hacks";
           "Industry Insights"; "Success Stories"; "Market Analysis";
           "Innovation Trends"; "Leadership Tips" ].

Definition hours (h : Z) : Z := (h * 60 * 60 * 1000)%Z.

(** [generateDepartmentTasks] (251-299); [uuid k] and [now k] are the
    values of the k-th [uuidv4()] and [Date.now()] it evaluates. *)
Definition generateDepartmentTasks (uuid : nat -> string) (now : nat -> Z)
  : list DepartmentTask.t :=
  [ DepartmentTask.mk content (uuid 0%nat) "Create 10+ social media posts"
      high (now 0%nat + hours 24) "content-manager" pending;
    DepartmentTask.mk production (uuid 1%nat)
      "Produce 2 videos for weekly schedule"
      medium (now 1%nat + hours 48) "production-manager" pending;
    DepartmentTask.mk distribution (uuid 2%nat)
      "Schedule and publish content across platforms"
      high (now 2%nat + hours 12) "distribution-manager" pending;
    DepartmentTask.mk revenue (uuid 3%nat)
      "Analyze conversion rates and optimize funnels"
      medium (now 3%nat + hours 36) "revenue-manager" pending ].

(** [getCurrentKPIs] (304-328) *)
Definition getCurrentKPIs : list (KPI.t num) :=
  [ KPI.mk "Daily Content Production" (lit 8) CONTENT_TARGETS_DAILY_POSTS
           "posts" up;
    KPI.mk "System Uptime" (lit 99.9) (lit 99.9) "%" stable;
    KPI.mk "Monthly Revenue" (lit 12000) BUSINESS_TARGETS_MONTHLY_REVENUE
           "$" up ].

(** [identifyPriorities] (333-350) *)
Definition identifyPriorities (uuid : nat -> string) (now : nat -> Z)
  : list Priority.t :=
  [ Priority.mk (uuid 0%nat) "Complete content production targets"
      imp_critical (now 0%nat + hours 24) prio_pending;
    Priority.mk (uuid 1%nat) "Optimize underperforming campaigns"
      imp_high (now 1%nat + hours 48) prio_pending ].

(** The plan object built by [morningBriefing] (106-113).  [clock k] is
    the k-th reading of the clock and [uuid k] the k-th identifier drawn
    during the call. *)
Definition plan_of (clock : nat -> Z) (uuid : nat -> string) : DailyPlan.t num :=
  let today := clock 0%nat in
  let budget := calculateBudgetAllocation in
  let tasks := generateDepartmentTasks uuid (fun k => clock (3 + k)%nat) in
  let kpis := getCurrentKPIs in
  let priorities :=
    identifyPriorities (fun k => uuid (4 + k)%nat) (fun k => clock (7 + k)%nat) in
  DailyPlan.mk today selectContentThemes budget tasks kpis priorities.

(** [morningBriefing] (96-119) *)
Definition morningBriefing (clock : nat -> Z) (uuid : nat -> string)
  : Proc t (DailyPlan.t num) :=
  (log info "Starting morning briefing..." None ;;
   set_dailyPlan (plan_of clock uuid) ;;
   log info "Daily plan created successfully" None ;;
   log info "Daily plan distributed to all departments" None ;;
   ret (plan_of clock uuid))%js.

Definition generateStrategicObjectives : list string :=
  [ "Increase daily content production by 25%";
    "Expand to 2 new social media platforms";
    "Improve engagement rate by 15%";
    "Launch new revenue stream" ].

Definition identifyStrategicRisks : list string :=
  [ "Market saturation in current niche";
    "Algorithm changes on major platforms";
    "Increased competition";
    "Economic downturn affecting ad spend" ].

Definition defineSuccessMetrics : list string :=
  [ "Monthly revenue growth > 20%";
    "Content engagement rate > 4%";
    "System uptime > 99.9%";
    "New followers > 10,000/month" ].

Definition implementStrategy (strategy : Strategy.t num) : Proc t unit :=
  log info ("Implementing strategy: " +:+ Strategy.name strategy) None.

Definition requestApproval (type : string) (data : Strategy.t num) : Proc t unit :=
  log info ("Requesting approval for: " +:+ type) None.

(** The strategy object built at 131-141; [uuid] is the value of
    [uuidv4()] and [today] the date part of [new Date().toISOString()]. *)
Definition strategy_of (uuid today : string) : Strategy.t num :=
  Strategy.mk uuid
    ("Strategic Focus " +:+ today)
    "Optimized strategy based on current performance and market conditions"
    generateStrategicObjectives
    "30 days"
    (Math_min (BUDGET_LIMIT DECISION_THRESHOLDS) (lit 800))
    (lit 2.5)
    identifyStrategicRisks
    defineSuccessMetrics.

(** [makeStrategicDecisions] (124-153).  The performance, market and
    competitor analyses it awaits first are constants that the strategy
    does not read. *)
Definition makeStrategicDecisions (uuid today : string)
  : Proc t (Strategy.t num) :=
  (log info "Analyzing strategic opportunities..." None ;;
   let strategy := strategy_of uuid today in
   (if canDecideAutonomously "Strategic planning within budget"
    then
      set_currentStrategy strategy ;;
      log info ("Strategic decision made autonomously: "
                +:+ Strategy.name strategy) None ;;
      implementStrategy strategy
    else
      log info "Strategic decision requires approval" None ;;
      requestApproval "strategic_decision" strategy) ;;
   ret strategy)%js.

(** The four per-department steps of the management cycle.  In the source
    all four have an empty body; the cycle is stated over any bodies so
    that the handling of a throwing step can be expressed. *)
Record DepartmentSteps := {
  checkDepartmentHealth : string -> Proc t unit;
  assignTasks : string -> Proc t unit;
  monitorProgress : string -> Proc t unit;
  optimizePerformance : string -> Proc t unit
}.

(** The bodies as the source has them (454-468). *)
Definition empty_steps : DepartmentSteps := {|
  checkDepartmentHealth := fun _ => ret tt;
  assignTasks := fun _ => ret tt;
  monitorProgress := fun _ => ret tt;
  optimizePerformance := fun _ => ret tt
|}.

(** [handleDepartmentError] (470-473) *)
Definition handleDepartmentError (deptName : string) (err : string)
  : Proc t unit :=
  log error ("Department " +:+ deptName +:+ " error:") (Some err).

(** The [try] block of the loop, 163-166. *)
Definition runSteps (steps : DepartmentSteps) (deptName : string)
  : Proc t unit :=
  (checkDepartmentHealth steps deptName ;;
   assignTasks steps deptName ;;
   monitorProgress steps deptName ;;
   optimizePerformance steps deptName)%js.

(** The [catch] block, 168-169. *)
Definition onError (deptName : string) (err : string) : Proc t unit :=
  (log error ("Error managing " +:+ deptName +:+ " department:") (Some err) ;;
   handleDepartmentError deptName err)%js.

(** One turn of the loop at 161-171. *)
Definition manageDepartment (steps : DepartmentSteps) (deptName : string)
  : Proc t unit :=
  try_catch (runSteps steps deptName) (onError deptName).

(** [manageDepartments] (158-172) over given step bodies.  The loop ranges
    over the departments present on entry: nothing in the class adds or
    removes one after construction. *)
Definition manageDepartmentsWith (steps : DepartmentSteps) : Proc t unit :=
  (log info "Managing department operations..." None ;;
   fun s => for_of (map fst (departments s)) (manageDepartment steps) s)%js.

Definition manageDepartments : Proc t unit :=
  manageDepartmentsWith empty_steps.

Definition generateTomorrowsPlan : list string :=
  [ "Review and optimize yesterday's content performance";
    "Implement new A/B testing strategies";
    "Analyze competitor content strategies";
    "Scale successful content formats" ].

(** [a.toDateString() === b.toDateString()], on UTC days. *)
Definition sameDay (a b : Z) : bool := (a / 86400000 =? b / 86400000)%Z.

Definition Issue_unresolved (i : Issue.t) : bool :=
  match Issue.status i with resolved => false | _ => true end.

(** The report object built by [eveningReport] (177-202) when the clock
    reads [now1], [now2] inside [analyzePerformance] and [today] after. *)
Definition report_of (this : t) (now1 now2 today : Z) : DailyReport.t num :=
  let performance := analyzePerformance this now1 now2 in
  let currentIssues := filter (fun i => Issue_unresolved i = true) (issues this) in
  let todaysAchievements :=
    filter (fun a => sameDay (Achievement.date a) today = true)
           (achievements this) in
  DailyReport.mk today performance currentIssues todaysAchievements
                 generateTomorrowsPlan.

Definition eveningReport (now1 now2 today : Z) : Proc t (DailyReport.t num) :=
  (log info "Generating evening report..." None ;;
   fun s =>
     (log info "Evening report generated successfully" None ;;
      log info "Sending daily report to stakeholders" None ;;
      ret (report_of s now1 now2 today)) s)%js.

End WithNumbers.
Arguments t num : clear implicits.
End HelmarCEO.

(* ===================================================================== *)
(** ** agents/managers/content.ts *)
(* ===================================================================== *)

(** A task object is known by its identity: [receiveTask] stores the
    reference it is given, and [processTask] later writes the [status] of
    that same object. *)
Abbreviation ref := nat (only parsing).

(** [xs] without its first occurrence of [x], if it has one. *)
Fixpoint remove_first (x : ref) (xs : list ref) : option (list ref) :=
  match xs with
  | [] => None
  | y :: xs' =>
      if decide (x = y) then Some xs'
      else match remove_first x xs' with
           | Some r => Some (y :: r)
           | None => None
           end
  end.

Module ContentManager.
Section WithNumbers.
Context {num : Type} `{JsNumber num}.

(** The [DepartmentManager] fields of the class.  The private content
    fields (plan, buffer, post counters), which only the task bodies
    touch, are left out; a body is represented by how it ends. *)
Record t := mk {
  name : string;
  department : string;
  status : AgentStatus;
  currentTasks : list ref;
  performance : PerformanceMetrics.t num;
  lastUpdate : Z
}.

(** The manager together with the task objects it may be handed
    ([tasks], by identity) and the calls of [processTask] that are
    suspended in their [await] ([processing], oldest first). *)
Record Runtime := {
  tasks : list DepartmentTask.t;
  this : t;
  processing : list ref
}.

(** [new ContentManager()] at time [now] *)
Definition new (now : Z) : t :=
  mk "Content Manager" "content" online []
     (PerformanceMetrics.mk (lit 0) (lit 0) (lit 0) (lit 1) (lit 0)) now.

Definition start (objects : list DepartmentTask.t) (now : Z) : Runtime :=
  {| tasks := objects; this := new now; processing := [] |}.

(** [t.status === 'pending' || t.status === 'in-progress'] *)
Definition unfinished (objects : list DepartmentTask.t) (task : ref) : bool :=
  match objects !! task with
  | Some o =>
      match DepartmentTask.status o with
      | pending | in_progress => true
      | _ => false
      end
  | None => false
  end.

(** [updatePerformanceMetrics] (251-263) *)
Definition updatePerformanceMetrics (objects : list DepartmentTask.t)
  (now : Z) (m : t) : t :=
  let p := performance m in
  let p' :=
    PerformanceMetrics.mk
      (PerformanceMetrics.tasksCompleted p)
      (PerformanceMetrics.tasksTotal p)
      (PerformanceMetrics.tasksCompleted p / PerformanceMetrics.tasksTotal p)%js
      (PerformanceMetrics.systemUptime p)
      (PerformanceMetrics.responseTime p) in
  let pendingTasks :=
    List.filter (unfinished objects) (currentTasks m) in
  mk (name m) (department m)
     (if (length pendingTasks =? 0)%nat then online else status m)
     (currentTasks m) p' now.

(** [receiveTask] (107-123), up to the point where the [processTask] it
    starts is suspended. *)
Definition receiveTask (task : ref) (w : Runtime) : option Runtime :=
  match tasks w !! task with
  | None => None
  | Some _ =>
      let m := this w in
      let p := performance m in
      let queue := currentTasks m ++ [task] in
      let p' :=
        PerformanceMetrics.mk
          (PerformanceMetrics.tasksCompleted p)
          (incr (PerformanceMetrics.tasksTotal p))
          (PerformanceMetrics.successRate p)
          (PerformanceMetrics.systemUptime p)
          (PerformanceMetrics.responseTime p) in
      let status' := if (5 <? length queue)%nat then busy else status m in
      Some {| tasks := tasks w;
              this := mk (name m) (department m) status' queue p' (lastUpdate m);
              processing := processing w ++ [task] |}
  end.

(** [processTask] (129-160) from the point where the awaited body has
    returned: lines 149-153. *)
Definition processTask_returned (task : ref) (now : Z) (w : Runtime)
  : option Runtime :=
  match remove_first task (processing w), tasks w !! task with
  | Some rest, Some o =>
      let objects := <[task := DepartmentTask.set_status completed o]> (tasks w) in
      let m := this w in
      let p := performance m in
      let p' :=
        PerformanceMetrics.mk
          (incr (PerformanceMetrics.tasksCompleted p))
          (PerformanceMetrics.tasksTotal p)
          (PerformanceMetrics.successRate p)
          (PerformanceMetrics.systemUptime p)
          (PerformanceMetrics.responseTime p) in
      let m' := mk (name m) (department m) (status m) (currentTasks m) p'
                   (lastUpdate m) in
      Some {| tasks := objects;
              this := updatePerformanceMetrics objects now m';
              processing := rest |}
  | _, _ => None
  end.

(** [processTask] from the point where the body has thrown: the [catch]
    block, lines 155-159. *)
Definition processTask_threw (task : ref) (w : Runtime) : option Runtime :=
  match remove_first task (processing w), tasks w !! task with
  | Some rest, Some o =>
      Some {| tasks := <[task := DepartmentTask.set_status blocked o]> (tasks w);
              this := this w;
              processing := rest |}
  | _, _ => None
  end.

(** What can happen to a manager: it is handed a task, or one of the
    bodies it awaits ends. *)
Inductive Event :=
  | Receive (task : ref)
  | BodyReturned (task : ref) (now : Z)
  | BodyThrew (task : ref).

Definition step (w : Runtime) (e : Event) : option Runtime :=
  match e with
  | Receive task => receiveTask task w
  | BodyReturned task now => processTask_returned task now w
  | BodyThrew task => processTask_threw task w
  end.

Fixpoint run (w : Runtime) (es : list Event) : option Runtime :=
  match es with
  | [] => Some w
  | e :: es' =>
      match step w e with
      | Some w' => run w' es'
      | None => None
      end
  end.

(** The tasks handed over, and those whose body returned, in a history. *)
Definition received (es : list Event) : list ref :=
  omap (fun e => match e with Receive task => Some task | _ => None end) es.

Definition returned (es : list Event) : list ref :=
  omap (fun e => match e with BodyReturned task _ => Some task | _ => None end) es.

Definition threw (es : list Event) : list ref :=
  omap (fun e => match e with BodyThrew task => Some task | _ => None end) es.

(** [getStatus] (279-288), with [currentTasks] read through the references. *)
Definition getStatus (w : Runtime) : DepartmentManager.t num :=
  let m := this w in
  DepartmentManager.mk (name m) (department m) (status m)
    (omap (fun r => tasks w !! r) (currentTasks m))
    (performance m) (lastUpdate m).

End WithNumbers.
Arguments t num : clear implicits.
Arguments Runtime num : clear implicits.
End ContentManager.

(* ===================================================================== *)
(** ** The two agents side by side *)
(* ===================================================================== *)

(** Neither class holds a reference to the other: the CEO's [departments]
    are plain records made by [initializeDepartments], and the manager
    has no field of the CEO's type. *)
Module Factory.
Section WithNumbers.
Context {num : Type} `{JsNumber num}.

Record t := {
  helmar : HelmarCEO.t num;
  contentManager : ContentManager.Runtime num
}.

Definition start (objects : list DepartmentTask.t) (now : Z) : t :=
  {| helmar := HelmarCEO.new now;
     contentManager := ContentManager.start objects now |}.

(** The public entry points of the CEO, as the orchestrator's routes and
    schedules call them, and the events of the manager. *)
Inductive Event :=
  | Briefing (clock : nat -> Z) (uuid : nat -> string)
  | Strategic (uuid today : string)
  | Manage
  | Report (now1 now2 today : Z)
  | Manager (e : ContentManager.Event).

Definition step (f : t) (e : Event) : option t :=
  let ceo (s : HelmarCEO.t num) :=
    Some {| helmar := s; contentManager := contentManager f |} in
  match e with
  | Briefing clock uuid => ceo (fst (HelmarCEO.morningBriefing clock uuid (helmar f)))
  | Strategic uuid today =>
      ceo (fst (HelmarCEO.makeStrategicDecisions uuid today (helmar f)))
  | Manage => ceo (fst (HelmarCEO.manageDepartments (helmar f)))
  | Report now1 now2 today =>
      ceo (fst (HelmarCEO.eveningReport now1 now2 today (helmar f)))
  | Manager e' =>
      match ContentManager.step (contentManager f) e' with
      | Some w => Some {| helmar := helmar f; contentManager := w |}
      | None => None
      end
  end.

Fixpoint run (f : t) (es : list Event) : option t :=
  match es with
  | [] => Some f
  | e :: es' =>
      match step f e with
      | Some f' => run f' es'
      | None => None
      end
  end.

End WithNumbers.
Arguments t num : clear implicits.
End Factory.


(* ===================================================================== *)
(** ** Sample inputs *)
(* ===================================================================== *)

(** Two task objects for the content department: a low-priority one due
    late and a high-priority one due early. *)
Definition sample_tasks : list DepartmentTask.t :=
  [ DepartmentTask.mk content "t-low" "Analyze competitor content"
      low 200 "content-manager" pending;
    DepartmentTask.mk content "t-high" "Create 10+ social media posts"
      high 100 "content-manager" pending ].

(** Step bodies of which one, the task assignment of the production
    department, throws. *)
Definition throwing_steps {num : Type} `{JsNumber num}
  : @HelmarCEO.DepartmentSteps num :=
  {| HelmarCEO.checkDepartmentHealth := fun _ => ret tt;
     HelmarCEO.assignTasks := fun deptName =>
       if String.eqb deptName "production"
       then (fun s => (s, Thrown "no capacity"))
       else ret tt;
     HelmarCEO.monitorProgress := fun _ => ret tt;
     HelmarCEO.optimizePerformance := fun _ => ret tt |}.


(* ===================================================================== *)
(** ** The task bodies of the Content Manager *)
(* ===================================================================== *)

(** The name each member of the [department] union stands for. *)
Definition Department_literal (d : Department) : string :=
  match d with
  | content => "content"
  | production => "production"
  | distribution => "distribution"
  | revenue => "revenue"
  end.

(** The bodies [processTask] awaits work on the private content fields of
    the manager only.  A draw of [Math.random()] is an input: a number of
    the program's arithmetic. *)
Module ContentBodies.
Section WithNumbers.
Context {num : Type} `{JsNumber num} `{JsFloor num}.

(** [contentBuffer] and the four counters of [performanceMetrics]. *)
Record Fields := {
  contentBuffer : list string;
  postsCreated : num;
  engagement : num;
  reach : num;
  conversions : num
}.

(** The fields of a new manager (41-47). *)
Definition new : Fields :=
  {| contentBuffer := []; postsCreated := lit 0; engagement := lit 0;
     reach := lit 0; conversions := lit 0 |}.

(** A count ([xs.length], the argument [count]) as a number. *)
Definition of_nat (n : nat) : num := lit (inject_Z (Z.of_nat n)).

(** [xs[Math.floor(r * xs.length)]]; [None] is [undefined]. *)
Definition pick {A} (xs : list A) (r : num) : option A :=
  match array_index (Math_floor (r * of_nat (length xs))%js) with
  | Some k => xs !! k
  | None => None
  end.

Definition postTemplates : list string :=
  [ "Did you know that AI can increase productivity by 40%? 🤖";
    "Top 5 business automation tools every entrepreneur needs 💼";
    "The future of work is here - embrace the change! 🚀";
    "How AI is transforming customer service in 2025 📱";
    "Building passive income streams with AI automation 💰" ].

(** The text of [`Post ${i + 1}: ${template}`]. *)
Definition post (i : nat) (template : option string) : string :=
  "Post " +:+ pretty (i + 1)%nat +:+ ": " +:+ default "undefined" template.

(** What the bodies do between two suspensions. *)
Inductive Turn :=
  (** one turn of the loop of [createSocialMediaPosts] (178-187), with
      loop index [i] and draw [r] *)
  | PostTurn (i : nat) (r : num)
  (** the end of [createSocialMediaPosts(count)] (189) *)
  | PostsDone (count : nat)
  (** [optimizeContent] (196-215): [r1] picks the strategy that is
      logged, [r2] is the draw behind the gain *)
  | OptimizeContent (r1 r2 : num)
  (** [analyzeCompetitors] (220-234), which only logs *)
  | AnalyzeCompetitors (r : num)
  (** [handleGenericTask] (239-246), which only logs and waits *)
  | HandleGenericTask.

Definition turn (f : Fields) (t : Turn) : Fields :=
  match t with
  | PostTurn i r =>
      {| contentBuffer := contentBuffer f ++ [post i (pick postTemplates r)];
         postsCreated := postsCreated f; engagement := engagement f;
         reach := reach f; conversions := conversions f |}
  | PostsDone count =>
      {| contentBuffer := contentBuffer f;
         postsCreated := (postsCreated f + of_nat count)%js;
         engagement := engagement f;
         reach := reach f; conversions := conversions f |}
  | OptimizeContent _ r2 =>
      {| contentBuffer := contentBuffer f;
         postsCreated := postsCreated f;
         engagement := (engagement f + r2 * lit 0.02)%js;
         reach := reach f; conversions := conversions f |}
  | AnalyzeCompetitors _ => f
  | HandleGenericTask => f
  end.

(** The turns of any number of bodies, in the order they are scheduled. *)
Definition turns (f : Fields) (ts : list Turn) : Fields := foldl turn f ts.

(** The turns of one call [createSocialMediaPosts(count)], whose k-th draw
    is [rand k]. *)
Definition createSocialMediaPosts (count : nat) (rand : nat -> num) : list Turn :=
  ((fun i => PostTurn i (rand i)) <$> seq 0 count) ++ [PostsDone count].

(** The posts the turns of a schedule push, in order. *)
Definition pushed (ts : list Turn) : list string :=
  omap (fun t => match t with
                 | PostTurn i r => Some (post i (pick postTemplates r))
                 | _ => None
                 end) ts.

(** The draws behind the gains of the [optimizeContent] calls of a
    schedule, in order. *)
Definition gains (ts : list Turn) : list num :=
  omap (fun t => match t with OptimizeContent _ r2 => Some r2 | _ => None end) ts.

(** The counts of the post loops a schedule brings to their end, in order. *)
Definition counts (ts : list Turn) : list nat :=
  omap (fun t => match t with PostsDone count => Some count | _ => None end) ts.

End WithNumbers.
Arguments Fields num : clear implicits.
Arguments Turn num : clear implicits.

(** The body [processTask] chooses for a task: the [switch] at 134-146. *)
Inductive Body :=
  | CreateSocialMediaPosts (count : nat)
  | Optimize
  | Analyze
  | Generic.

Definition bodyOf (task : DepartmentTask.t) : Body :=
  let d := toLowerCase (DepartmentTask.description task) in
  if String.eqb d "create 10+ social media posts" then CreateSocialMediaPosts 10
  else if String.eqb d "optimize content for engagement" then Optimize
  else if String.eqb d "analyze competitor content" then Analyze
  else Generic.

End ContentBodies.

(* ===================================================================== *)
(** ** orchestrator.ts *)
(* ===================================================================== *)

Module Orchestrator.
Section WithNumbers.
Context {num : Type} `{JsNumber num}.

Inductive Level := lvl_info | lvl_warn | lvl_error.

(** The orchestrator with the agent it drives; [logger] is its own log
    (level and text of each record) and [exited] tells that
    [process.exit] was reached. *)
Record t := mk {
  helmarAgent : HelmarCEO.t num;
  isRunning : bool;
  logger : list (Level * string);
  exited : bool
}.

Definition log (msg : string) (o : t) : t :=
  mk (helmarAgent o) (isRunning o) (logger o ++ [(lvl_info, msg)]) (exited o).

Definition warn (msg : string) (o : t) : t :=
  mk (helmarAgent o) (isRunning o) (logger o ++ [(lvl_warn, msg)]) (exited o).

(** An agent method called from a route or a schedule: the orchestrator
    keeps the agent as the call leaves it. *)
Definition call {A} (m : Proc (HelmarCEO.t num) A) (o : t) : t :=
  mk (fst (m (helmarAgent o))) (isRunning o) (logger o) (exited o).

(** The module-level agent and [new ContentFactoryOrchestrator()] (83-90). *)
Definition new (now : Z) : t :=
  log "Scheduled tasks configured" (mk (HelmarCEO.new now) false [] false).

(** What reaches the orchestrator: the four schedules (189-239), the
    routes (96-184), [start] (244-265), a turn of the health loop
    (270-304), the listen callback, and the two halves of [shutdown]
    (309-318).  Each carries the clock readings and identifiers the agent
    draws during the call. *)
Inductive Event :=
  | CronBriefing (clock : nat -> Z) (uuid : nat -> string)
  | CronReport (now1 now2 today : Z)
  | CronManage
  | CronStrategic (uuid today : string)
  | GetHealth
  | GetStatus (now1 now2 : Z)
  | PostBriefing (clock : nat -> Z) (uuid : nat -> string)
  | GetReport (now1 now2 today : Z)
  | PostStrategy (uuid today : string)
  | PostStop
  | Start (clock : nat -> Z) (uuid : nat -> string)
  | Listening (port : string)
  | HealthCheck (heapUsed : Z)
  | ShutdownBegin
  | ShutdownExit.

(** A scheduled job does its work only while the system is running. *)
Definition scheduled (msg : string) (job : t -> t) (o : t) : t :=
  if isRunning o then job (log msg o) else o.

Definition handle (o : t) (e : Event) : t :=
  match e with
  | CronBriefing clock uuid =>
      scheduled "Running scheduled morning briefing"
                (call (HelmarCEO.morningBriefing clock uuid)) o
  | CronReport now1 now2 today =>
      scheduled "Running scheduled evening report"
                (call (HelmarCEO.eveningReport now1 now2 today)) o
  | CronManage =>
      scheduled "Running department management cycle"
                (call HelmarCEO.manageDepartments) o
  | CronStrategic uuid today =>
      scheduled "Running strategic decision cycle"
                (call (HelmarCEO.makeStrategicDecisions uuid today)) o
  | GetHealth => o
  | GetStatus _ _ => o
  | PostBriefing clock uuid => call (HelmarCEO.morningBriefing clock uuid) o
  | GetReport now1 now2 today => call (HelmarCEO.eveningReport now1 now2 today) o
  | PostStrategy uuid today => call (HelmarCEO.makeStrategicDecisions uuid today) o
  | PostStop =>
      let o' := warn "Emergency stop triggered" o in
      mk (helmarAgent o') false (logger o') (exited o')
  | Start clock uuid =>
      let o1 := mk (helmarAgent o) true (logger o) (exited o) in
      let o2 := log "Running initial morning briefing..." o1 in
      let o3 := call (HelmarCEO.morningBriefing clock uuid) o2 in
      log "Helmar CEO Agent is now operational" o3
  | Listening port =>
      log ("AI Content Factory Orchestrator running on port " +:+ port) o
  | HealthCheck heapUsed =>
      if isRunning o
      then if (1024 * 1024 * 1024 <? heapUsed)%Z
           then warn "High memory usage detected" o else o
      else o
  | ShutdownBegin =>
      let o' := log "Shutting down AI Content Factory Orchestrator..." o in
      mk (helmarAgent o') false (logger o') (exited o')
  | ShutdownExit =>
      let o' := log "Orchestrator shutdown complete" o in
      mk (helmarAgent o') (isRunning o') (logger o') true
  end.

(** Nothing is handled once the process has exited. *)
Definition step (o : t) (e : Event) : option t :=
  if exited o then None else Some (handle o e).

Fixpoint run (o : t) (es : list Event) : option t :=
  match es with
  | [] => Some o
  | e :: es' =>
      match step o e with
      | Some o' => run o' es'
      | None => None
      end
  end.

(** The events that set [isRunning], with the value they set. *)
Definition switches (e : Event) : option bool :=
  match e with
  | Start _ _ => Some true
  | PostStop | ShutdownBegin => Some false
  | _ => None
  end.

Definition is_cron (e : Event) : bool :=
  match e with
  | CronBriefing _ _ | CronReport _ _ _ | CronManage | CronStrategic _ _ => true
  | _ => false
  end.

End WithNumbers.
Arguments t num : clear implicits.
End Orchestrator.

(* ===================================================================== *)
(** ** Notions used in the statements *)
(* ===================================================================== *)

(** The agent [s] with the records [rs] added to its log. *)
Definition logged {num : Type} (s : HelmarCEO.t num) (rs : list LogRecord)
  : HelmarCEO.t num :=
  HelmarCEO.mk (HelmarCEO.departments s) (HelmarCEO.currentStrategy s)
    (HelmarCEO.dailyPlan s) (HelmarCEO.issues s) (HelmarCEO.achievements s)
    (HelmarCEO.startTime s) (HelmarCEO.logger s ++ rs).

(** The two records the management cycle logs for a department whose
    steps ended as [o]: none if they returned. *)
Definition failure_records (deptName : string) (o : outcome unit)
  : list LogRecord :=
  match o with
  | Returned _ => []
  | Thrown err =>
      [ Build_LogRecord error ("Error managing " +:+ deptName +:+ " department:")
                        (Some err);
        Build_LogRecord error ("Department " +:+ deptName +:+ " error:")
                        (Some err) ]
  end.

(** The number of records an event of the factory adds to the agent's log. *)
Definition records_of (e : Factory.Event) : nat :=
  match e with
  | Factory.Briefing _ _ => 3
  | Factory.Strategic _ _ => 3
  | Factory.Manage => 1
  | Factory.Report _ _ _ => 3
  | Factory.Manager _ => 0
  end.

(** The status an event writes to the task object [task], if it writes one. *)
Definition ending_of (e : ContentManager.Event) (task : ref) : option TaskStatus :=
  match e with
  | ContentManager.Receive _ => None
  | ContentManager.BodyReturned r _ => if decide (r = task) then Some completed else None
  | ContentManager.BodyThrew r => if decide (r = task) then Some blocked else None
  end.

(** The status written to [task] by the latest event of a history that
    wrote one. *)
Fixpoint last_ending (es : list ContentManager.Event) (task : ref)
  : option TaskStatus :=
  match es with
  | [] => None
  | e :: es' =>
      match last_ending es' task with
      | Some st => Some st
      | None => ending_of e task
      end
  end.

(** A task object with its status overwritten, if there is a status to write. *)
Definition overwritten (st : option TaskStatus) (o : DepartmentTask.t)
  : DepartmentTask.t :=
  match st with
  | Some st' => DepartmentTask.set_status st' o
  | None => o
  end.

(** Every task the manager holds is either still being processed or no
    longer pending nor in progress. *)
Definition settled_or_running {num : Type} (w : ContentManager.Runtime num) : Prop :=
  forall r : ref,
    r ∈ ContentManager.currentTasks (ContentManager.this w) ->
    r ∈ ContentManager.processing w \/
    ContentManager.unfinished (ContentManager.tasks w) r = false.

(** Whether [isRunning] is set after a history that began with it at [b]. *)
Definition running_after (b : bool) (es : list Orchestrator.Event) : bool :=
  foldl (fun acc e => default acc (Orchestrator.switches e)) b es.

(* ===================================================================== *)
(** * Properties *)
(* ===================================================================== *)

(** ** Substring search *)

Lemma append_nil (s : string) : "" +:+ s = s.
Proof. reflexivity. Qed.

Lemma append_cons (c : ascii) (s t : string) :
  String c s +:+ t = String c (s +:+ t).
Proof. reflexivity. Qed.

Lemma prefix_append (t s : string) :
  String.prefix t s = true <-> exists post, s = t +:+ post.
Proof.
  revert s. induction t as [|a t IH]; intros s.
  - destruct s; simpl; split; eauto.
  - destruct s as [|b s]; simpl.
    + split; [discriminate | intros [post Hp]; discriminate].
    + destruct (ascii_dec a b) as [->|Hab].
      * rewrite IH. split; intros [post Hp]; exists post.
        -- rewrite append_cons. congruence.
        -- rewrite append_cons in Hp. congruence.
      * split; [discriminate|].
        intros [post Hp]. rewrite append_cons in Hp. congruence.
Qed.

(** [includes] decides occurrence as a substring. *)
Lemma includes_spec (s t : string) :
  includes s t = true <-> exists pre post, s = pre +:+ t +:+ post.
Proof.
  induction s as [|c s IH].
  - cbn [includes]. rewrite orb_false_r, prefix_append. split.
    + intros [post Hp]. exists "", post. exact Hp.
    + intros (pre & post & Hp). destruct pre; [|discriminate].
      exists post. exact Hp.
  - cbn [includes]. rewrite orb_true_iff, prefix_append, IH. split.
    + intros [[post Hp] | (pre & post & Hp)].
      * exists "", post. exact Hp.
      * exists (String c pre), post. rewrite append_cons. congruence.
    + intros (pre & post & Hp). destruct pre as [|c' pre].
      * left. exists post. exact Hp.
      * right. rewrite append_cons in Hp. exists pre, post. congruence.
Qed.

Lemma matches_spec (rules : list string) (action : string) :
  matches rules action = true <->
  exists rule pre post,
    rule ∈ rules /\ toLowerCase action = pre +:+ toLowerCase rule +:+ post.
Proof.
  unfold matches, some. rewrite existsb_exists. split.
  - intros (rule & Hin & Hinc). apply includes_spec in Hinc.
    destruct Hinc as (pre & post & Heq).
    exists rule, pre, post. split; [by apply list_elem_of_In | exact Heq].
  - intros (rule & pre & post & Hin & Heq). exists rule. split.
    + by apply list_elem_of_In.
    + apply includes_spec. eauto.
Qed.

(** ** The autonomy check *)

(** C2, as the code has it: an action is decided autonomously exactly
    when, letters folded to lower case, it contains an entry of the
    [canDecideAutonomously] list; every other action goes to approval.
    Neither the [requiresApproval] list nor any cost enters the check. *)
Theorem canDecideAutonomously_iff (action : string) :
  canDecideAutonomously action = true <->
  exists rule pre post,
    rule ∈ canDecideAutonomously_rules HELMAR_AUTONOMY_RULES /\
    toLowerCase action = pre +:+ toLowerCase rule +:+ post.
Proof. apply (matches_spec (canDecideAutonomously_rules HELMAR_AUTONOMY_RULES)). Qed.

(** C2 fails as stated, in both halves: an action that contains the
    [requiresApproval] entry "New market or platform entry" is decided
    autonomously because it also contains "A/B testing experiments"; and
    the action the CEO itself submits matches no [requiresApproval] entry
    and yet is not decided autonomously. *)
Lemma requiresApproval_is_not_consulted :
  (matches (requiresApproval HELMAR_AUTONOMY_RULES)
     "New market or platform entry after A/B testing experiments" = true /\
   canDecideAutonomously
     "New market or platform entry after A/B testing experiments" = true) /\
  (matches (requiresApproval HELMAR_AUTONOMY_RULES)
     "Strategic planning within budget" = false /\
   canDecideAutonomously "Strategic planning within budget" = false).
Proof. vm_compute. repeat split; reflexivity. Qed.

(** ** Budgets *)





(** The same budgets as the engine computes them, in binary64. *)
Lemma committed_budgets_binary64 (uuid today : string) :
  Strategy.budget (@HelmarCEO.strategy_of float _ uuid today) = 800%float /\
  BudgetAllocation.total (@HelmarCEO.calculateBudgetAllocation float _) = 800%float /\
  @BUDGET_LIMIT float DECISION_THRESHOLDS = 1000%float.
Proof. vm_compute. repeat split; reflexivity. Qed.

(** C4: in every plan the allocation is the fixed split of its total:
    30% content, 25% production, 25% distribution, 15% marketing and 5%
    operations, and the five shares add up to the total.  This holds in
    exact arithmetic, and also in binary64, where the total is 800 and the
    shares come out as 240, 200, 200, 120 and 40 without rounding error. *)
Theorem budget_allocation_split (clock : nat -> Z) (uuid : nat -> string) :
  (let a := DailyPlan.budgetAllocation (@HelmarCEO.plan_of Q _ clock uuid) in
   (BudgetAllocation.content a == (30 # 100) * BudgetAllocation.total a)%Q /\
   (BudgetAllocation.production a == (25 # 100) * BudgetAllocation.total a)%Q /\
   (BudgetAllocation.distribution a == (25 # 100) * BudgetAllocation.total a)%Q /\
   (BudgetAllocation.marketing a == (15 # 100) * BudgetAllocation.total a)%Q /\
   (BudgetAllocation.operations a == (5 # 100) * BudgetAllocation.total a)%Q /\
   (BudgetAllocation.content a + BudgetAllocation.production a
    + BudgetAllocation.distribution a + BudgetAllocation.marketing a
    + BudgetAllocation.operations a == BudgetAllocation.total a)%Q) /\
  (let b := DailyPlan.budgetAllocation (@HelmarCEO.plan_of float _ clock uuid) in
   BudgetAllocation.total b = 800%float /\
   BudgetAllocation.content b = 240%float /\
   BudgetAllocation.production b = 200%float /\
   BudgetAllocation.distribution b = 200%float /\
   BudgetAllocation.marketing b = 120%float /\
   BudgetAllocation.operations b = 40%float /\
   (BudgetAllocation.content b + BudgetAllocation.production b
    + BudgetAllocation.distribution b + BudgetAllocation.marketing b
    + BudgetAllocation.operations b)%js = BudgetAllocation.total b).
Proof.
  split.
  - cbn -[Qmin Qmult Qplus].
    set (total := Qmin _ _).
    repeat split; ring.
  - vm_compute. repeat split; reflexivity.
Qed.

(** ** Performance analysis *)

Lemma uptime_in_unit_interval (d1 d2 : Z) :
  (0 <= d1)%Z -> (0 <= d2)%Z ->
  (0 <= Qmin (inject_Z d1 / (inject_Z d2 + 1000)) 1 <= 1)%Q.
Proof.
  intros H1 H2. split; [|apply Q.le_min_r].
  apply Q.min_glb; [|discriminate].
  assert (Hd1 : (0 <= inject_Z d1)%Q) by (rewrite (Zle_Qle 0 d1) in H1; exact H1).
  assert (Hd2 : (0 <= inject_Z d2)%Q) by (rewrite (Zle_Qle 0 d2) in H2; exact H2).
  apply Qle_shift_div_l; lra.
Qed.

Lemma inject_Z_sub (a b : Z) : (inject_Z a - inject_Z b)%Q = inject_Z (a - b).
Proof. unfold Qminus. rewrite <- inject_Z_opp, <- inject_Z_plus. reflexivity. Qed.

(** C10, as the code has it: whatever the state of the agent and its
    departments, every call of [analyzePerformance] returns tasksCompleted
    45, tasksTotal 50, successRate 0.9 and responseTime 150; systemUptime
    lies in [0, 1] whenever neither clock reading is earlier than the
    agent's start time. *)
Theorem analyzePerformance_fixed (this : HelmarCEO.t Q) (now1 now2 : Z) :
  let m := HelmarCEO.analyzePerformance this now1 now2 in
  PerformanceMetrics.tasksCompleted m = 45%Q /\
  PerformanceMetrics.tasksTotal m = 50%Q /\
  PerformanceMetrics.successRate m = 0.9%Q /\
  PerformanceMetrics.responseTime m = 150%Q /\
  ((HelmarCEO.startTime this <= now1)%Z ->
   (HelmarCEO.startTime this <= now2)%Z ->
   (0 <= PerformanceMetrics.systemUptime m <= 1)%Q).
Proof.
  intros m. repeat (split; [reflexivity|]). intros H1 H2.
  subst m. cbn -[Qmin Qdiv Qplus Qminus inject_Z].
  unfold of_time. cbn -[Qmin Qdiv Qplus Qminus inject_Z].
  rewrite !inject_Z_sub.
  apply uptime_in_unit_interval; lia.
Qed.

Lemma analyzePerformance_fixed_witness :
  let this := @HelmarCEO.new Q _ 1000 in
  (HelmarCEO.startTime this <= 2000)%Z /\
  (HelmarCEO.startTime this <= 2500)%Z /\
  let m := HelmarCEO.analyzePerformance this 2000 2500 in
  PerformanceMetrics.tasksCompleted m = 45%Q /\
  PerformanceMetrics.tasksTotal m = 50%Q /\
  PerformanceMetrics.successRate m = 0.9%Q /\
  PerformanceMetrics.responseTime m = 150%Q /\
  (0 <= PerformanceMetrics.systemUptime m <= 1)%Q.
Proof.
  intros this.
  assert (H1 : (HelmarCEO.startTime this <= 2000)%Z) by (simpl; lia).
  assert (H2 : (HelmarCEO.startTime this <= 2500)%Z) by (simpl; lia).
  split; [exact H1|]. split; [exact H2|].
  destruct (analyzePerformance_fixed this 2000 2500) as (Hc & Ht & Hr & Hp & Hu).
  exact (conj Hc (conj Ht (conj Hr (conj Hp (Hu H1 H2))))).
Defined.

(** C10 fails as stated: an agent started at clock reading 1000 whose
    clock has been set back to 500 reports a systemUptime of -1, outside
    [0, 1], in binary64 as in exact arithmetic. *)
Lemma analyzePerformance_uptime_negative :
  PerformanceMetrics.systemUptime
    (HelmarCEO.analyzePerformance (@HelmarCEO.new float _ 1000) 500 500)
  = (-1)%float /\
  let m := HelmarCEO.analyzePerformance (@HelmarCEO.new Q _ 1000) 500 500 in
  (PerformanceMetrics.systemUptime m == -1)%Q /\
  ~ (0 <= PerformanceMetrics.systemUptime m <= 1)%Q.
Proof.
  split; [vm_compute; reflexivity|].
  split; [vm_compute; reflexivity|].
  intros [Hle _]. vm_compute in Hle. apply Hle. reflexivity.
Qed.

(** With the clock set back by exactly one second and more, the quotient
    is no number at all: -Infinity when the denominator is 0, NaN when
    the numerator is 0 as well. *)
Lemma analyzePerformance_uptime_not_finite :
  PerformanceMetrics.systemUptime
    (HelmarCEO.analyzePerformance (@HelmarCEO.new float _ 1000) 0 0)
  = neg_infinity /\
  PrimFloat.is_nan
    (PerformanceMetrics.systemUptime
       (HelmarCEO.analyzePerformance (@HelmarCEO.new float _ 1000) 1000 0))
  = true.
Proof. split; vm_compute; reflexivity. Qed.

(** The same call in binary64, one second after the agent started. *)
Lemma analyzePerformance_binary64 :
  HelmarCEO.analyzePerformance (@HelmarCEO.new float _ 1000) 2000 2000
  = PerformanceMetrics.mk 45%float 50%float 0.9%float 0.5%float 150%float.
Proof. vm_compute. reflexivity. Qed.

(** ** The Content Manager *)

Section ContentManagerFacts.
Context {num : Type} `{JsNumber num}.
Import ContentManager.

Implicit Types (w : Runtime num) (e : Event) (es : list Event) (task : ref).

Lemma receiveTask_defined w task :
  task < length (tasks w) -> exists w', receiveTask task w = Some w'.
Proof.
  intros Hlt. unfold receiveTask.
  destruct (tasks w !! task) as [o|] eqn:E; [eauto|].
  apply lookup_ge_None in E. lia.
Qed.

Lemma run_app w es1 es2 :
  run w (es1 ++ es2) =
  match run w es1 with Some w1 => run w1 es2 | None => None end.
Proof.
  revert w. induction es1 as [|e es1 IH]; intros w; simpl; [reflexivity|].
  destruct (step w e); [apply IH | reflexivity].
Qed.

Lemma remove_first_sublist task (xs rest : list ref) :
  remove_first task xs = Some rest -> rest `sublist_of` xs.
Proof.
  revert rest. induction xs as [|y xs IH]; intros rest; simpl; [discriminate|].
  destruct (decide (task = y)).
  - intros [= ->]. by apply sublist_cons.
  - destruct (remove_first task xs) as [r|]; [|discriminate].
    intros [= <-]. apply sublist_skip, IH. reflexivity.
Qed.

Lemma remove_first_length task (xs rest : list ref) :
  remove_first task xs = Some rest -> length xs = S (length rest).
Proof.
  revert rest. induction xs as [|y xs IH]; intros rest; simpl; [discriminate|].
  destruct (decide (task = y)).
  - intros [= ->]. reflexivity.
  - destruct (remove_first task xs) as [r|]; [|discriminate].
    intros [= <-]. simpl. f_equal. apply IH. reflexivity.
Qed.

(** No step writes ['offline']. *)
Lemma step_status w e w' :
  step w e = Some w' -> status (this w) <> offline -> status (this w') <> offline.
Proof.
  destruct e as [task|task now|task]; simpl.
  - unfold receiveTask. destruct (tasks w !! task); [|discriminate].
    intros [= <-] Hs. simpl. destruct (5 <? _)%nat; [discriminate | exact Hs].
  - unfold processTask_returned.
    destruct (remove_first task (processing w)); [|discriminate].
    destruct (tasks w !! task); [|discriminate].
    intros [= <-] Hs. simpl. destruct (_ =? 0)%nat; [discriminate | exact Hs].
  - unfold processTask_threw.
    destruct (remove_first task (processing w)); [|discriminate].
    destruct (tasks w !! task); [|discriminate].
    intros [= <-] Hs. exact Hs.
Qed.

Lemma run_status w es w' :
  run w es = Some w' -> status (this w) <> offline -> status (this w') <> offline.
Proof.
  revert w. induction es as [|e es IH]; intros w; simpl.
  - intros [= <-]. auto.
  - destruct (step w e) as [w1|] eqn:Hstep; [|discriminate].
    intros Hrun Hs. eapply IH; [exact Hrun|]. eapply step_status; eauto.
Qed.

(** C9: from a new manager, whatever tasks are received and however their
    processing ends, the status is 'online' or 'busy', never 'offline'. *)
Theorem status_online_or_busy (objects : list DepartmentTask.t) (now : Z) es w :
  run (start objects now) es = Some w ->
  status (this w) = online \/ status (this w) = busy.
Proof.
  intros Hrun.
  assert (Hs : status (this w) <> offline)
    by (eapply run_status; [exact Hrun | discriminate]).
  destruct (status (this w)); [by left | done | by right].
Qed.

Lemma receiveTask_effect w task w' :
  receiveTask task w = Some w' ->
  tasks w' = tasks w /\
  currentTasks (this w') = currentTasks (this w) ++ [task] /\
  processing w' = processing w ++ [task] /\
  status (this w') =
    (if (5 <? length (currentTasks (this w) ++ [task]))%nat
     then busy else status (this w)).
Proof.
  unfold receiveTask. destruct (tasks w !! task); [|discriminate].
  intros [= <-]. simpl. auto.
Qed.

(** [receiveTask] increments [tasksTotal] and touches no other field of
    [performance]. *)
Lemma receiveTask_performance w task w' :
  receiveTask task w = Some w' ->
  PerformanceMetrics.tasksTotal (performance (this w'))
  = incr (PerformanceMetrics.tasksTotal (performance (this w))) /\
  PerformanceMetrics.tasksCompleted (performance (this w'))
  = PerformanceMetrics.tasksCompleted (performance (this w)) /\
  PerformanceMetrics.successRate (performance (this w'))
  = PerformanceMetrics.successRate (performance (this w)) /\
  PerformanceMetrics.systemUptime (performance (this w'))
  = PerformanceMetrics.systemUptime (performance (this w)) /\
  PerformanceMetrics.responseTime (performance (this w'))
  = PerformanceMetrics.responseTime (performance (this w)).
Proof.
  unfold receiveTask. destruct (tasks w !! task); [|discriminate].
  intros [= <-]. simpl. auto.
Qed.

(** Only a completion refreshes the stored rate: a reception and a
    failure leave [successRate] as it was. *)
Lemma step_keeps_rate w e w' :
  step w e = Some w' ->
  (forall task now, e <> BodyReturned task now) ->
  PerformanceMetrics.successRate (performance (this w'))
  = PerformanceMetrics.successRate (performance (this w)).
Proof.
  intros Hstep Hne. destruct e as [task|task now|task]; simpl in Hstep.
  - by destruct (receiveTask_performance w task w' Hstep) as (_ & _ & Hr & _).
  - by destruct (Hne task now).
  - unfold processTask_threw in Hstep.
    destruct (remove_first task (processing w)); [|discriminate].
    destruct (tasks w !! task); [|discriminate].
    by injection Hstep as <-.
Qed.

(** C7, as the code has it: [receiveTask] turns no task away.  Whatever
    the manager already holds, every task of a batch handed to it is
    appended to [currentTasks], counted in [tasksTotal] (one increment per
    task, the other performance fields untouched) and has its processing
    started while the earlier ones are still running; the load only shows
    in [status], which becomes 'busy' once more than five tasks are held. *)
Theorem receiveTask_always_accepts w (batch : list ref) :
  Forall (fun task => task < length (tasks w)) batch ->
  exists w',
    run w (Receive <$> batch) = Some w' /\
    tasks w' = tasks w /\
    currentTasks (this w') = currentTasks (this w) ++ batch /\
    processing w' = processing w ++ batch /\
    PerformanceMetrics.tasksTotal (performance (this w'))
    = Nat.iter (length batch) incr
        (PerformanceMetrics.tasksTotal (performance (this w))) /\
    PerformanceMetrics.tasksCompleted (performance (this w'))
    = PerformanceMetrics.tasksCompleted (performance (this w)) /\
    PerformanceMetrics.successRate (performance (this w'))
    = PerformanceMetrics.successRate (performance (this w)) /\
    (batch <> [] -> 5 < length (currentTasks (this w')) ->
     status (this w') = busy) /\
    (length (currentTasks (this w')) <= 5 -> status (this w') = status (this w)).
Proof.
  revert w. induction batch as [|task batch IH]; intros w Hall.
  - exists w. simpl. rewrite !app_nil_r. repeat split; auto. done.
  - apply Forall_cons in Hall as [Hlt Hall].
    destruct (receiveTask_defined w task Hlt) as [w1 Hw1].
    destruct (receiveTask_effect w task w1 Hw1) as (Ht & Hc & Hp & Hs).
    destruct (receiveTask_performance w task w1 Hw1)
      as (Htot & Hcom & Hrate & _ & _).
    destruct (IH w1)
      as (w' & Hrun & Ht' & Hc' & Hp' & Htot' & Hcom' & Hrate' & Hbusy & Hsame).
    { by rewrite Ht. }
    exists w'. cbn [fmap list_fmap run step]. rewrite Hw1.
    split; [exact Hrun|]. split; [congruence|].
    split; [by rewrite Hc', Hc, <- app_assoc|].
    split; [by rewrite Hp', Hp, <- app_assoc|].
    split.
    { rewrite Htot', Htot. cbn [length]. by rewrite Nat.iter_succ_r. }
    split; [congruence|]. split; [congruence|].
    split.
    + intros _ Hlen. destruct batch as [|task' batch].
      * simpl in Hrun. injection Hrun as <-.
        rewrite Hs. rewrite <- Hc.
        destruct (Nat.ltb_spec 5 (length (currentTasks (this w1)))); [done | lia].
      * apply Hbusy; [done | exact Hlen].
    + intros Hlen. rewrite (Hsame Hlen), Hs.
      assert (length (currentTasks (this w) ++ [task]) <= 5).
      { rewrite Hc', Hc in Hlen. rewrite !length_app in *. simpl in *. lia. }
      destruct (Nat.ltb_spec 5 (length (currentTasks (this w) ++ [task])));
        [lia | reflexivity].
Qed.

Lemma step_queue w e w' :
  step w e = Some w' ->
  currentTasks (this w') = currentTasks (this w) ++ received [e] /\
  (processing w `sublist_of` currentTasks (this w) ->
   processing w' `sublist_of` currentTasks (this w')) /\
  DepartmentTask.priority <$> tasks w' = DepartmentTask.priority <$> tasks w /\
  DepartmentTask.deadline <$> tasks w' = DepartmentTask.deadline <$> tasks w.
Proof.
  destruct e as [task|task now|task]; simpl.
  - intros Hr. apply receiveTask_effect in Hr as (Ht & Hc & Hp & _).
    rewrite Hc, Hp, Ht. repeat split.
    intros Hsub. by apply sublist_app.
  - unfold processTask_returned.
    destruct (remove_first task (processing w)) as [rest|] eqn:Hrm; [|discriminate].
    destruct (tasks w !! task) as [o|] eqn:Ho; [|discriminate].
    intros [= <-]. simpl. rewrite app_nil_r. split; [reflexivity|]. split.
    + intros Hsub. etrans; [by eapply remove_first_sublist | exact Hsub].
    + rewrite !list_fmap_insert. simpl.
      split; apply list_insert_id; by rewrite list_lookup_fmap, Ho.
  - unfold processTask_threw.
    destruct (remove_first task (processing w)) as [rest|] eqn:Hrm; [|discriminate].
    destruct (tasks w !! task) as [o|] eqn:Ho; [|discriminate].
    intros [= <-]. simpl. rewrite app_nil_r. split; [reflexivity|]. split.
    + intros Hsub. etrans; [by eapply remove_first_sublist | exact Hsub].
    + rewrite !list_fmap_insert. simpl.
      split; apply list_insert_id; by rewrite list_lookup_fmap, Ho.
Qed.

Lemma received_app es1 es2 : received (es1 ++ es2) = received es1 ++ received es2.
Proof. unfold received. apply omap_app. Qed.

Lemma run_queue w es w' :
  run w es = Some w' ->
  currentTasks (this w') = currentTasks (this w) ++ received es /\
  (processing w `sublist_of` currentTasks (this w) ->
   processing w' `sublist_of` currentTasks (this w')) /\
  DepartmentTask.priority <$> tasks w' = DepartmentTask.priority <$> tasks w /\
  DepartmentTask.deadline <$> tasks w' = DepartmentTask.deadline <$> tasks w.
Proof.
  revert w. induction es as [|e es IH]; intros w; simpl.
  - intros [= <-]. rewrite app_nil_r. auto.
  - destruct (step w e) as [w1|] eqn:Hstep; [|discriminate].
    intros Hrun. apply step_queue in Hstep as (Hc & Hsub & Hpr & Hdl).
    apply IH in Hrun as (Hc' & Hsub' & Hpr' & Hdl').
    split; [|split; [auto | split; congruence]].
    rewrite Hc', Hc, <- app_assoc, <- received_app. reflexivity.
Qed.

(** C8, as the code has it: the queue of a manager is its tasks in the
    order they were received.  After any history, [currentTasks] lists the
    received tasks in arrival order, the tasks still being processed
    appear in that same order, and neither the priority nor the deadline
    of a task (which no step changes) has any part in it. *)
Theorem queue_is_arrival_order (objects : list DepartmentTask.t) (now : Z) es w :
  run (start objects now) es = Some w ->
  currentTasks (this w) = received es /\
  processing w `sublist_of` currentTasks (this w) /\
  DepartmentTask.priority <$> tasks w = DepartmentTask.priority <$> objects /\
  DepartmentTask.deadline <$> tasks w = DepartmentTask.deadline <$> objects.
Proof.
  intros Hrun. apply run_queue in Hrun as (Hc & Hsub & Hpr & Hdl).
  simpl in *. split; [exact Hc|]. split; [|split; assumption].
  apply Hsub. constructor.
Qed.

End ContentManagerFacts.

(** ** Success rate *)

Section SuccessRate.
Import ContentManager.

Implicit Types (w : Runtime Q) (e : Event) (es : list Event).

Local Abbreviation count xs := (inject_Z (Z.of_nat (length xs))).

Local Ltac counters :=
  unfold incr; cbn [num_add lit JsNumber_Q];
  change (inject_Z (Z.of_nat 1)) with 1%Q;
  change (inject_Z (Z.of_nat 0)) with 0%Q;
  repeat split; try lra; try lia.

Lemma step_counters w e w' :
  step w e = Some w' ->
  (PerformanceMetrics.tasksTotal (performance (this w'))
   == PerformanceMetrics.tasksTotal (performance (this w)) + count (received [e]))%Q /\
  (PerformanceMetrics.tasksCompleted (performance (this w'))
   == PerformanceMetrics.tasksCompleted (performance (this w)) + count (returned [e]))%Q /\
  (length (processing w') + length (returned [e]) + length (threw [e])
   = length (processing w) + length (received [e]))%nat.
Proof.
  destruct e as [task|task now|task]; simpl.
  - unfold receiveTask. destruct (tasks w !! task); [|discriminate].
    intros [= <-]. simpl. rewrite length_app. simpl. counters.
  - unfold processTask_returned.
    destruct (remove_first task (processing w)) as [rest|] eqn:Hrm; [|discriminate].
    destruct (tasks w !! task); [|discriminate].
    intros [= <-]. simpl. apply remove_first_length in Hrm. counters.
  - unfold processTask_threw.
    destruct (remove_first task (processing w)) as [rest|] eqn:Hrm; [|discriminate].
    destruct (tasks w !! task); [|discriminate].
    intros [= <-]. simpl. apply remove_first_length in Hrm. counters.
Qed.

Lemma count_app {A} (xs ys : list A) : (count (xs ++ ys) == count xs + count ys)%Q.
Proof. rewrite length_app, Nat2Z.inj_add, inject_Z_plus. reflexivity. Qed.

Lemma run_counters w es w' :
  run w es = Some w' ->
  (PerformanceMetrics.tasksTotal (performance (this w'))
   == PerformanceMetrics.tasksTotal (performance (this w)) + count (received es))%Q /\
  (PerformanceMetrics.tasksCompleted (performance (this w'))
   == PerformanceMetrics.tasksCompleted (performance (this w)) + count (returned es))%Q /\
  (length (processing w') + length (returned es) + length (threw es)
   = length (processing w) + length (received es))%nat.
Proof.
  revert w. induction es as [|e es IH]; intros w; cbn [run].
  - intros [= <-]. cbn. counters.
  - destruct (step w e) as [w1|] eqn:Hstep; [|discriminate].
    intros Hrun. apply step_counters in Hstep as (Ht & Hc & Hp).
    apply IH in Hrun as (Ht' & Hc' & Hp').
    change (e :: es) with ([e] ++ es).
    unfold received, returned, threw in *. rewrite !omap_app.
    rewrite !count_app, !length_app, Ht', Ht, Hc', Hc.
    split; [lra|]. split; [lra | lia].
Qed.

Lemma returned_snoc es task now :
  returned (es ++ [BodyReturned task now]) = returned es ++ [task].
Proof. unfold returned. rewrite omap_app. reflexivity. Qed.

Lemma received_snoc_returned es task now :
  received (es ++ [BodyReturned task now]) = received es.
Proof. unfold received. rewrite omap_app. simpl. apply app_nil_r. Qed.

(** C3, as the code has it: whenever the manager has just recorded the
    completion of a task, after any history of receptions, completions and
    failures, its success rate is its completed count divided by its total
    count; and at that point the completed count is the number of tasks
    completed so far and the total count, which is positive, the number of
    tasks received so far.  (Receptions and failures do not refresh the
    rate: [step_keeps_rate].) *)
Theorem successRate_is_completed_over_total
  (objects : list DepartmentTask.t) (now0 : Z) es task now w :
  run (start objects now0) (es ++ [BodyReturned task now]) = Some w ->
  let p := performance (this w) in
  PerformanceMetrics.successRate p
  = (PerformanceMetrics.tasksCompleted p / PerformanceMetrics.tasksTotal p)%Q /\
  (PerformanceMetrics.tasksCompleted p
   == count (returned (es ++ [BodyReturned task now])))%Q /\
  (PerformanceMetrics.tasksTotal p
   == count (received (es ++ [BodyReturned task now])))%Q /\
  (0 < PerformanceMetrics.tasksTotal p)%Q.
Proof.
  intros Hrun p.
  pose proof (run_counters _ _ _ Hrun) as (Ht & Hc & Hp).
  rewrite run_app in Hrun.
  destruct (run (start objects now0) es) as [w0|] eqn:Hrun0; [|discriminate].
  cbn [run step] in Hrun.
  destruct (processTask_returned task now w0) as [w1|] eqn:Hstep; [|discriminate].
  injection Hrun as <-.
  split.
  - unfold processTask_returned in Hstep.
    destruct (remove_first task (processing w0)); [|discriminate].
    destruct (tasks w0 !! task); [|discriminate].
    injection Hstep as <-. reflexivity.
  - simpl in Ht, Hc, Hp. fold p in Ht, Hc.
    split; [rewrite Hc; lra|]. split; [rewrite Ht; lra|].
    rewrite Ht. rewrite returned_snoc, length_app in Hp. simpl in Hp.
    assert (Hpos : (0 < Z.of_nat (length (received (es ++ [BodyReturned task now]))))%Z)
      by lia.
    rewrite (Zlt_Qlt 0) in Hpos. change (inject_Z 0) with 0%Q in Hpos. lra.
Qed.

End SuccessRate.

(** ** The department-management cycle *)

Section ManageDepartments.
Context {num : Type} `{JsNumber num}.
Import HelmarCEO.

Implicit Types (s : HelmarCEO.t num) (steps : @DepartmentSteps num).

(** The [catch] block appends two error records and touches nothing else. *)
Lemma onError_effect (deptName err : string) s :
  onError deptName err s
  = (mk (departments s) (currentStrategy s) (dailyPlan s) (issues s)
        (achievements s) (startTime s)
        (logger s ++
         [ Build_LogRecord error ("Error managing " +:+ deptName +:+ " department:")
                           (Some err);
           Build_LogRecord error ("Department " +:+ deptName +:+ " error:")
                           (Some err) ]),
     Returned tt).
Proof.
  unfold onError, handleDepartmentError, log, bind. simpl.
  rewrite <- app_assoc. reflexivity.
Qed.






Lemma for_of_empty_steps (names : list string) s :
  for_of names (manageDepartment empty_steps) s = (s, Returned tt).
Proof.
  revert s. induction names as [|d names IH]; intros s; [reflexivity|].
  cbn [for_of]. unfold bind at 1.
  change (manageDepartment empty_steps d s) with (s, Returned tt).
  apply IH.
Qed.

(** With the bodies the source has, the cycle only writes its log line. *)
Lemma manageDepartments_effect s :
  manageDepartments s = log info "Managing department operations..." None s.
Proof.
  unfold manageDepartments, manageDepartmentsWith, bind at 1.
  unfold log at 1. cbv beta iota. rewrite for_of_empty_steps. reflexivity.
Qed.

End ManageDepartments.

(** ** Failed tasks and the report *)

Section FactoryFacts.
Context {num : Type} `{JsNumber num}.

Implicit Types (f : Factory.t num).





End FactoryFacts.

(** ** Budgets over histories *)








(** ** Concrete runs *)

Section Runs.
Import ContentManager.

Lemma successRate_is_completed_over_total_witness :
  exists w : Runtime Q,
    run (start sample_tasks 0)
        ([Receive 0; Receive 1; BodyThrew 0] ++ [BodyReturned 1 50]) = Some w /\
    let p := performance (this w) in
    PerformanceMetrics.successRate p
    = (PerformanceMetrics.tasksCompleted p / PerformanceMetrics.tasksTotal p)%Q /\
    (PerformanceMetrics.tasksCompleted p == 1)%Q /\
    (PerformanceMetrics.tasksTotal p == 2)%Q /\
    (0 < PerformanceMetrics.tasksTotal p)%Q.
Proof.
  eexists. split; [vm_compute; reflexivity|].
  exact (successRate_is_completed_over_total sample_tasks 0
           [Receive 0; Receive 1; BodyThrew 0] 1 50 _ eq_refl).
Defined.

(** The scenario of nine successes and one failure out of ten tasks, in
    binary64: the rate recorded at the ninth completion is 0.9. *)
Lemma nine_of_ten_binary64 :
  let receptions := Receive <$> replicate 10 0%nat in
  let endings := BodyThrew 0 :: ((fun k => BodyReturned 0 k) <$> replicate 9 7%Z) in
  (fun w : Runtime float => PerformanceMetrics.successRate (performance (this w)))
    <$> run (start sample_tasks 0) (receptions ++ endings)
  = Some 0.9%float.
Proof. vm_compute. reflexivity. Qed.

(** C3 fails as stated: the outcome of the second task, a failure, is
    recorded (the task is marked 'blocked') without the rate being
    refreshed; one task of two is completed and the stored rate is 1.
    The rate is as stale before that outcome, from the moment the second
    task is received. *)
Lemma successRate_stale_after_failure :
  (exists w : Runtime Q,
     run (start sample_tasks 0)
         [Receive 0; BodyReturned 0 5; Receive 1; BodyThrew 1] = Some w /\
     let p := performance (this w) in
     PerformanceMetrics.tasksCompleted p = 1%Q /\
     PerformanceMetrics.tasksTotal p = 2%Q /\
     PerformanceMetrics.successRate p = 1%Q /\
     ~ (PerformanceMetrics.successRate p
        == PerformanceMetrics.tasksCompleted p / PerformanceMetrics.tasksTotal p)%Q) /\
  (exists w : Runtime Q,
     run (start sample_tasks 0)
         [Receive 0; BodyReturned 0 5; Receive 1] = Some w /\
     let p := performance (this w) in
     PerformanceMetrics.tasksCompleted p = 1%Q /\
     PerformanceMetrics.tasksTotal p = 2%Q /\
     PerformanceMetrics.successRate p = 1%Q /\
     ~ (PerformanceMetrics.successRate p
        == PerformanceMetrics.tasksCompleted p / PerformanceMetrics.tasksTotal p)%Q).
Proof.
  split;
    (eexists; split; [vm_compute; reflexivity|];
     cbv zeta; repeat (split; [vm_compute; reflexivity|]);
     intros Heq; vm_compute in Heq; discriminate Heq).
Qed.

(** The scenario of nine successes and one failure out of ten tasks, run
    one task after the other with the failure last, in binary64: the
    counters read 9 and 10 and the stored rate is 1. *)
Lemma nine_of_ten_in_sequence_binary64 :
  let one k := [Receive 0; BodyReturned 0 k] in
  (fun w : Runtime float =>
     let p := performance (this w) in
     (PerformanceMetrics.tasksCompleted p, PerformanceMetrics.tasksTotal p,
      PerformanceMetrics.successRate p))
    <$> run (start sample_tasks 0)
            (concat (one <$> replicate 9 7%Z) ++ [Receive 1; BodyThrew 1])
  = Some (9, 10, 1)%float.
Proof. vm_compute. reflexivity. Qed.

Lemma status_online_or_busy_witness :
  exists w : Runtime float,
    run (start sample_tasks 0)
        ((Receive <$> replicate 6 0%nat) ++ [BodyReturned 0 9]) = Some w /\
    (status (this w) = online \/ status (this w) = busy).
Proof.
  eexists. split; [vm_compute; reflexivity|].
  refine (status_online_or_busy sample_tasks 0
            ((Receive <$> replicate 6 0%nat) ++ [BodyReturned 0 9]) _ _).
  vm_compute. reflexivity.
Defined.

Lemma receiveTask_always_accepts_witness :
  let w : Runtime float := start sample_tasks 0 in
  let batch := [0; 1; 0; 1; 0; 1]%nat in
  Forall (fun task => task < length (tasks w)) batch /\
  exists w',
    run w (Receive <$> batch) = Some w' /\
    tasks w' = tasks w /\
    currentTasks (this w') = currentTasks (this w) ++ batch /\
    processing w' = processing w ++ batch /\
    PerformanceMetrics.tasksTotal (performance (this w'))
    = Nat.iter (length batch) incr
        (PerformanceMetrics.tasksTotal (performance (this w))) /\
    PerformanceMetrics.tasksCompleted (performance (this w'))
    = PerformanceMetrics.tasksCompleted (performance (this w)) /\
    PerformanceMetrics.successRate (performance (this w'))
    = PerformanceMetrics.successRate (performance (this w)) /\
    (batch <> [] -> 5 < length (currentTasks (this w')) ->
     status (this w') = busy) /\
    (length (currentTasks (this w')) <= 5 -> status (this w') = status (this w)).
Proof.
  intros w batch.
  assert (Hall : Forall (fun task => task < length (tasks w)) batch)
    by (repeat constructor).
  split; [exact Hall|].
  exact (receiveTask_always_accepts w batch Hall).
Defined.

(** C7 fails as stated: a manager that is processing one task, the whole
    of the default limit, accepts a second one and processes both at once. *)
Lemma second_task_not_rejected :
  (fun w : Runtime Q => (processing w, currentTasks (this w), status (this w)))
    <$> run (start sample_tasks 0) [Receive 0; Receive 1]
  = Some ([0; 1]%nat, [0; 1]%nat, online).
Proof. vm_compute. reflexivity. Qed.

Lemma queue_is_arrival_order_witness :
  exists w : Runtime float,
    run (start sample_tasks 0) [Receive 1; Receive 0; BodyThrew 1; Receive 1]
    = Some w /\
    currentTasks (this w) = [1; 0; 1]%nat /\
    processing w `sublist_of` currentTasks (this w) /\
    DepartmentTask.priority <$> tasks w = DepartmentTask.priority <$> sample_tasks /\
    DepartmentTask.deadline <$> tasks w = DepartmentTask.deadline <$> sample_tasks.
Proof.
  eexists. split; [vm_compute; reflexivity|].
  exact (queue_is_arrival_order sample_tasks 0
           [Receive 1; Receive 0; BodyThrew 1; Receive 1] _ eq_refl).
Defined.

(** C8 fails as stated: a low-priority task due at 200 received before a
    high-priority task due at 100 stays ahead of it in the queue and is
    started first. *)
Lemma low_priority_first :
  (fun w : Runtime Q =>
     (fun task => (DepartmentTask.priority task, DepartmentTask.deadline task))
       <$> omap (fun r => tasks w !! r) (currentTasks (this w)))
    <$> run (start sample_tasks 0) [Receive 0; Receive 1]
  = Some [(low, 200%Z); (high, 100%Z)] /\
  (fun w : Runtime Q => processing w)
    <$> run (start sample_tasks 0) [Receive 0; Receive 1]
  = Some [0; 1]%nat.
Proof. vm_compute. split; reflexivity. Qed.

End Runs.

Section FactoryRuns.
Import Factory.



End FactoryRuns.

Section CycleRuns.
Import HelmarCEO.



End CycleRuns.

(* ===================================================================== *)
(** * Further properties of the code *)
(* ===================================================================== *)

(** ** The autonomy check, continued *)

Lemma lower_ascii_idem (c : ascii) : lower_ascii (lower_ascii c) = lower_ascii c.
Proof. destruct c as [[] [] [] [] [] [] [] []]; reflexivity. Qed.

Lemma toLowerCase_idem (s : string) : toLowerCase (toLowerCase s) = toLowerCase s.
Proof.
  induction s as [|c s IH]; [reflexivity|].
  cbn [toLowerCase]. by rewrite lower_ascii_idem, IH.
Qed.

Lemma toLowerCase_append (s t : string) :
  toLowerCase (s +:+ t) = toLowerCase s +:+ toLowerCase t.
Proof.
  induction s as [|c s IH]; [reflexivity|].
  rewrite append_cons. cbn [toLowerCase]. by rewrite append_cons, IH.
Qed.

Lemma append_assoc (s t u : string) : (s +:+ t) +:+ u = s +:+ (t +:+ u).
Proof.
  induction s as [|c s IH]; [reflexivity|].
  by rewrite !append_cons, IH.
Qed.

Lemma includes_refl (s : string) : includes s s = true.
Proof.
  apply includes_spec. exists "", "". rewrite append_nil.
  induction s as [|c s IH]; [reflexivity|]. by rewrite append_cons, <- IH.
Qed.

Lemma matches_extends (rules : list string) (action pre post : string) :
  matches rules action = true -> matches rules (pre +:+ action +:+ post) = true.
Proof.
  rewrite !matches_spec. intros (rule & p & q & Hin & Heq).
  exists rule, (toLowerCase pre +:+ p), (q +:+ toLowerCase post).
  split; [exact Hin|].
  rewrite !toLowerCase_append, Heq, !append_assoc. reflexivity.
Qed.

(** An action stays within the agent's autonomy when text is put before or
    after it: whatever contains an autonomously decidable action is
    decided autonomously too. *)
Theorem autonomy_survives_extension (action pre post : string) :
  canDecideAutonomously action = true ->
  canDecideAutonomously (pre +:+ action +:+ post) = true.
Proof. apply (matches_extends (canDecideAutonomously_rules HELMAR_AUTONOMY_RULES)). Qed.

Lemma autonomy_survives_extension_witness :
  canDecideAutonomously "A/B testing experiments" = true /\
  canDecideAutonomously
    ("Cancel all " +:+ "A/B testing experiments" +:+ " and fire the staff") = true.
Proof.
  assert (H : canDecideAutonomously "A/B testing experiments" = true)
    by (vm_compute; reflexivity).
  split; [exact H|].
  exact (autonomy_survives_extension "A/B testing experiments"
           "Cancel all " " and fire the staff" H).
Defined.

(** The check does not see letter case: two actions that agree once their
    letters are folded to lower case get the same decision, and an action
    gets the decision of its lower-case form. *)
Theorem autonomy_ignores_case (action other : string) :
  toLowerCase other = toLowerCase action ->
  canDecideAutonomously other = canDecideAutonomously action /\
  canDecideAutonomously (toLowerCase action) = canDecideAutonomously action.
Proof.
  unfold canDecideAutonomously. intros ->. split; [reflexivity|].
  by rewrite toLowerCase_idem.
Qed.

Lemma autonomy_ignores_case_witness :
  toLowerCase "MINOR Workflow adjustments" = toLowerCase "minor workflow ADJUSTMENTS" /\
  canDecideAutonomously "MINOR Workflow adjustments"
  = canDecideAutonomously "minor workflow ADJUSTMENTS" /\
  canDecideAutonomously (toLowerCase "minor workflow ADJUSTMENTS")
  = canDecideAutonomously "minor workflow ADJUSTMENTS".
Proof.
  assert (H : toLowerCase "MINOR Workflow adjustments"
              = toLowerCase "minor workflow ADJUSTMENTS") by (vm_compute; reflexivity).
  split; [exact H|].
  exact (autonomy_ignores_case "minor workflow ADJUSTMENTS"
           "MINOR Workflow adjustments" H).
Defined.

Lemma matches_own_rule (rules : list string) (rule : string) :
  rule ∈ rules -> matches rules rule = true.
Proof.
  intros Hin. apply matches_spec. exists rule, "", "". split; [exact Hin|].
  rewrite append_nil. generalize (toLowerCase rule) as s.
  induction s as [|c s IH]; [reflexivity|]. by rewrite append_cons, <- IH.
Qed.

(** The three rule lists are kept apart by the check: submitted word for
    word, every entry of the autonomy list is decided autonomously and no
    entry of the approval list or of the report list is; nor is the empty
    action. *)
Theorem rule_lists_kept_apart :
  Forall (fun rule => canDecideAutonomously rule = true)
         (canDecideAutonomously_rules HELMAR_AUTONOMY_RULES) /\
  Forall (fun rule => canDecideAutonomously rule = false)
         (requiresApproval HELMAR_AUTONOMY_RULES) /\
  Forall (fun rule => canDecideAutonomously rule = false)
         (mustReport HELMAR_AUTONOMY_RULES) /\
  canDecideAutonomously "" = false.
Proof.
  split.
  { apply Forall_forall. intros rule Hin.
    by apply (matches_own_rule (canDecideAutonomously_rules HELMAR_AUTONOMY_RULES)). }
  split; [|split; [|vm_compute; reflexivity]];
    cbn; repeat constructor; vm_compute; reflexivity.
Qed.

(** ** The agent over histories, continued *)

Lemma strategic_action_needs_approval :
  canDecideAutonomously "Strategic planning within budget" = false.
Proof. vm_compute. reflexivity. Qed.

(** What a step of the factory does to the agent: only the plan and the
    log can change, and the log grows by the records of the event. *)
Lemma step_agent_frame {num} `{JsNumber num} (f : Factory.t num) e f' :
  Factory.step f e = Some f' ->
  let s := Factory.helmar f in
  let s' := Factory.helmar f' in
  HelmarCEO.departments s' = HelmarCEO.departments s /\
  HelmarCEO.currentStrategy s' = HelmarCEO.currentStrategy s /\
  HelmarCEO.issues s' = HelmarCEO.issues s /\
  HelmarCEO.achievements s' = HelmarCEO.achievements s /\
  HelmarCEO.startTime s' = HelmarCEO.startTime s /\
  exists rs, HelmarCEO.logger s' = HelmarCEO.logger s ++ rs /\
             length rs = records_of e.
Proof.
  destruct e as [clock uuid|uuid today| |now1 now2 today|e]; cbn [Factory.step].
  - intros [= <-]. cbn. repeat (split; [reflexivity|]).
    eexists. rewrite <- !app_assoc. split; reflexivity.
  - intros Hstep.
    assert (Hf : Factory.helmar f'
                 = fst (HelmarCEO.makeStrategicDecisions uuid today (Factory.helmar f)))
      by (injection Hstep as <-; reflexivity).
    cbv zeta. rewrite Hf. unfold HelmarCEO.makeStrategicDecisions.
    rewrite strategic_action_needs_approval. cbn.
    repeat (split; [reflexivity|]).
    eexists. rewrite <- !app_assoc. split; reflexivity.
  - intros Hstep.
    assert (Hf : Factory.helmar f' = fst (HelmarCEO.manageDepartments (Factory.helmar f)))
      by (injection Hstep as <-; reflexivity).
    cbv zeta. rewrite Hf, manageDepartments_effect. cbn.
    repeat (split; [reflexivity|]). eexists. split; reflexivity.
  - intros [= <-]. cbn. repeat (split; [reflexivity|]).
    eexists. rewrite <- !app_assoc. split; reflexivity.
  - destruct (ContentManager.step _ e); [|discriminate]. intros [= <-]. cbn.
    repeat (split; [reflexivity|]). exists []. by rewrite app_nil_r.
Qed.

(** The agent never acts on a strategy of its own accord: the action it
    submits for its strategy matches no entry of the autonomy list, so
    every strategic decision is sent to approval and, after any history,
    no current strategy is set. *)
Theorem strategy_always_sent_to_approval {num} `{JsNumber num}
  (objects : list DepartmentTask.t) (now0 : Z) (es : list Factory.Event)
  (f : Factory.t num) (uuid today : string) :
  Factory.run (Factory.start objects now0) es = Some f ->
  HelmarCEO.currentStrategy (Factory.helmar f) = None /\
  HelmarCEO.makeStrategicDecisions uuid today (Factory.helmar f)
  = (logged (Factory.helmar f)
       [ Build_LogRecord info "Analyzing strategic opportunities..." None;
         Build_LogRecord info "Strategic decision requires approval" None;
         Build_LogRecord info "Requesting approval for: strategic_decision" None ],
     Returned (HelmarCEO.strategy_of uuid today)).
Proof.
  intros Hrun. split.
  - assert (Hgen : forall f0 : Factory.t num,
               Factory.run f0 es = Some f ->
               HelmarCEO.currentStrategy (Factory.helmar f)
               = HelmarCEO.currentStrategy (Factory.helmar f0)).
    { clear Hrun. induction es as [|e es IH]; intros f0; simpl.
      - intros [= <-]. reflexivity.
      - destruct (Factory.step f0 e) as [f1|] eqn:Hstep; [|discriminate].
        intros Hrun. rewrite (IH _ Hrun).
        by destruct (step_agent_frame _ _ _ Hstep) as (_ & -> & _). }
    rewrite (Hgen _ Hrun). reflexivity.
  - unfold HelmarCEO.makeStrategicDecisions.
    rewrite strategic_action_needs_approval.
    unfold logged. cbn. rewrite <- !app_assoc. reflexivity.
Qed.

Lemma strategy_always_sent_to_approval_witness :
  exists f : Factory.t float,
    Factory.run (Factory.start sample_tasks 0)
      [ Factory.Strategic "id-1" "2025-01-01"; Factory.Manage;
        Factory.Strategic "id-2" "2025-01-01" ] = Some f /\
    HelmarCEO.currentStrategy (Factory.helmar f) = None /\
    HelmarCEO.makeStrategicDecisions "id-3" "2025-01-02" (Factory.helmar f)
    = (logged (Factory.helmar f)
         [ Build_LogRecord info "Analyzing strategic opportunities..." None;
           Build_LogRecord info "Strategic decision requires approval" None;
           Build_LogRecord info "Requesting approval for: strategic_decision" None ],
       Returned (HelmarCEO.strategy_of "id-3" "2025-01-02")).
Proof.
  eexists. split; [vm_compute; reflexivity|].
  refine (strategy_always_sent_to_approval sample_tasks 0
            [ Factory.Strategic "id-1" "2025-01-01"; Factory.Manage;
              Factory.Strategic "id-2" "2025-01-01" ] _ "id-3" "2025-01-02" _).
  vm_compute. reflexivity.
Defined.

Lemma run_agent_frame {num} `{JsNumber num} (f : Factory.t num) es f' :
  Factory.run f es = Some f' ->
  let s := Factory.helmar f in
  let s' := Factory.helmar f' in
  HelmarCEO.departments s' = HelmarCEO.departments s /\
  HelmarCEO.issues s' = HelmarCEO.issues s /\
  HelmarCEO.achievements s' = HelmarCEO.achievements s /\
  HelmarCEO.startTime s' = HelmarCEO.startTime s /\
  exists rs, HelmarCEO.logger s' = HelmarCEO.logger s ++ rs /\
             length rs = sum_list (records_of <$> es).
Proof.
  revert f. induction es as [|e es IH]; intros f; cbn [Factory.run].
  - intros [= <-]. cbn. repeat (split; [reflexivity|]).
    exists []. by rewrite app_nil_r.
  - destruct (Factory.step f e) as [f1|] eqn:Hstep; [|discriminate].
    intros Hrun.
    destruct (step_agent_frame _ _ _ Hstep) as (Hd & _ & Hi & Ha & Ht & rs & Hl & Hn).
    destruct (IH _ Hrun) as (Hd' & Hi' & Ha' & Ht' & rs' & Hl' & Hn').
    cbv zeta in *.
    split; [congruence|]. split; [congruence|]. split; [congruence|].
    split; [congruence|].
    exists (rs ++ rs'). split.
    + by rewrite Hl', Hl, app_assoc.
    + rewrite length_app, Hn, Hn'. reflexivity.
Qed.

(** The agent never updates what it knows of its departments: after any
    history its four department records are as constructed (online, no
    task, all counters zero), its start time is unchanged and it holds no
    issue and no achievement, so every report it then builds lists none. *)
Theorem agent_records_never_updated {num} `{JsNumber num}
  (objects : list DepartmentTask.t) (now0 : Z) (es : list Factory.Event)
  (f : Factory.t num) (now1 now2 today : Z) :
  Factory.run (Factory.start objects now0) es = Some f ->
  let s := Factory.helmar f in
  HelmarCEO.departments s = HelmarCEO.initializeDepartments now0 /\
  HelmarCEO.startTime s = now0 /\
  HelmarCEO.issues s = [] /\
  HelmarCEO.achievements s = [] /\
  DailyReport.issues (HelmarCEO.report_of s now1 now2 today) = [] /\
  DailyReport.achievements (HelmarCEO.report_of s now1 now2 today) = [].
Proof.
  intros Hrun s.
  destruct (run_agent_frame _ _ _ Hrun) as (Hd & Hi & Ha & Ht & _).
  cbv zeta in *. subst s. cbn in Hd, Hi, Ha, Ht.
  repeat split; try assumption.
  - unfold HelmarCEO.report_of. cbn. by rewrite Hi.
  - unfold HelmarCEO.report_of. cbn. by rewrite Ha.
Qed.

Lemma agent_records_never_updated_witness :
  exists f : Factory.t float,
    Factory.run (Factory.start sample_tasks 7)
      [ Factory.Manager (ContentManager.Receive 0);
        Factory.Manager (ContentManager.BodyReturned 0 20);
        Factory.Manage; Factory.Report 30 30 30 ] = Some f /\
    let s := Factory.helmar f in
    HelmarCEO.departments s = HelmarCEO.initializeDepartments 7 /\
    HelmarCEO.startTime s = 7%Z /\
    HelmarCEO.issues s = [] /\
    HelmarCEO.achievements s = [] /\
    DailyReport.issues (HelmarCEO.report_of s 40 40 40) = [] /\
    DailyReport.achievements (HelmarCEO.report_of s 40 40 40) = [].
Proof.
  eexists. split; [vm_compute; reflexivity|].
  refine (agent_records_never_updated sample_tasks 7
            [ Factory.Manager (ContentManager.Receive 0);
              Factory.Manager (ContentManager.BodyReturned 0 20);
              Factory.Manage; Factory.Report 30 30 30 ] _ 40 40 40 _).
  vm_compute. reflexivity.
Defined.

(** The agent's log only grows: after any history it is the two records
    of construction followed by three records for every briefing,
    strategic decision and report and one for every management cycle;
    the events of the manager leave it alone. *)
Theorem agent_log_only_grows {num} `{JsNumber num}
  (objects : list DepartmentTask.t) (now0 : Z) (es : list Factory.Event)
  (f : Factory.t num) :
  Factory.run (Factory.start objects now0) es = Some f ->
  exists rs,
    HelmarCEO.logger (Factory.helmar f)
    = HelmarCEO.logger (@HelmarCEO.new num _ now0) ++ rs /\
    length rs = sum_list (records_of <$> es) /\
    length (HelmarCEO.logger (Factory.helmar f)) = 2 + sum_list (records_of <$> es).
Proof.
  intros Hrun.
  destruct (run_agent_frame _ _ _ Hrun) as (_ & _ & _ & _ & rs & Hl & Hn).
  cbv zeta in *. exists rs. split; [exact Hl|]. split; [exact Hn|].
  rewrite Hl, length_app, Hn. reflexivity.
Qed.

Lemma agent_log_only_grows_witness :
  let es := [ Factory.Briefing (fun k => Z.of_nat k) (fun _ => "id");
              Factory.Manager (ContentManager.Receive 1); Factory.Manage;
              Factory.Strategic "id" "2025-01-01"; Factory.Report 9 9 9 ] in
  exists f : Factory.t float,
    Factory.run (Factory.start sample_tasks 0) es = Some f /\
    exists rs,
      HelmarCEO.logger (Factory.helmar f)
      = HelmarCEO.logger (@HelmarCEO.new float _ 0) ++ rs /\
      length rs = sum_list (records_of <$> es) /\
      length (HelmarCEO.logger (Factory.helmar f)) = 2 + sum_list (records_of <$> es).
Proof.
  intros es. eexists. split; [vm_compute; reflexivity|].
  refine (agent_log_only_grows sample_tasks 0 es _ _).
  vm_compute. reflexivity.
Defined.

(** ** Uptime *)

(** The uptime ratio [d / (d + 1000)] of an elapsed time [d >= 0]. *)
Lemma uptime_ratio (d : Q) :
  (0 <= d)%Q ->
  (d / (d + 1000) < 1)%Q /\
  (forall a, (a <= d / (d + 1000) <-> a * (d + 1000) <= d)%Q).
Proof.
  intros Hd.
  assert (Hpos : (0 < d + 1000)%Q) by lra.
  assert (Heq : (d / (d + 1000) * (d + 1000) == d)%Q)
    by (field; lra).
  set (u := (d / (d + 1000))%Q) in *. split.
  - apply Qnot_le_lt. intros Hle. nra.
  - intros a. split; intros Ha; nra.
Qed.

Lemma elapsed_time (this : HelmarCEO.t Q) (now : Z) :
  PerformanceMetrics.systemUptime (HelmarCEO.analyzePerformance this now now)
  = Qmin (inject_Z (now - HelmarCEO.startTime this)
          / (inject_Z (now - HelmarCEO.startTime this) + 1000)) 1.
Proof.
  unfold HelmarCEO.analyzePerformance, of_time.
  cbn -[Qmin Qdiv Qplus Qminus inject_Z]. by rewrite !inject_Z_sub.
Qed.

(** The reported uptime is [t / (t + 1000)] for the time [t], in
    milliseconds, since the agent started: it grows with [t], stays
    strictly below 1, and reaches the required minimum of 0.999 exactly
    from 999 seconds of running on. *)
Theorem uptime_grows_towards_one (this : HelmarCEO.t Q) (now later : Z) :
  (HelmarCEO.startTime this <= now)%Z ->
  (now <= later)%Z ->
  let uptime t :=
    PerformanceMetrics.systemUptime (HelmarCEO.analyzePerformance this t t) in
  (uptime now == inject_Z (now - HelmarCEO.startTime this)
                 / (inject_Z (now - HelmarCEO.startTime this) + 1000))%Q /\
  (uptime now < 1)%Q /\
  (uptime now <= uptime later)%Q /\
  ((SYSTEM_UPTIME_MINIMUM DECISION_THRESHOLDS <= uptime now)%Q <->
   (999000 <= now - HelmarCEO.startTime this)%Z).
Proof.
  intros Hstart Hlater uptime.
  assert (Hform : forall t, (HelmarCEO.startTime this <= t)%Z ->
            (0 <= inject_Z (t - HelmarCEO.startTime this))%Q /\
            (uptime t == inject_Z (t - HelmarCEO.startTime this)
                         / (inject_Z (t - HelmarCEO.startTime this) + 1000))%Q).
  { intros t Ht.
    assert (Hd : (0 <= inject_Z (t - HelmarCEO.startTime this))%Q).
    { change 0%Q with (inject_Z 0). rewrite <- Zle_Qle. lia. }
    split; [exact Hd|]. unfold uptime. rewrite elapsed_time.
    apply Q.min_l. destruct (uptime_ratio _ Hd) as [Hlt _]. lra. }
  destruct (Hform now Hstart) as [Hd Hnow].
  destruct (Hform later ltac:(lia)) as [Hd' Hlat].
  destruct (uptime_ratio _ Hd) as [Hlt Hiff].
  destruct (uptime_ratio _ Hd') as [Hlt' Hiff'].
  assert (Hmono : (inject_Z (now - HelmarCEO.startTime this)
                   <= inject_Z (later - HelmarCEO.startTime this))%Q)
    by (rewrite <- Zle_Qle; lia).
  set (d := inject_Z (now - HelmarCEO.startTime this)) in *.
  set (d' := inject_Z (later - HelmarCEO.startTime this)) in *.
  split; [exact Hnow|]. split; [rewrite Hnow; exact Hlt|]. split.
  - rewrite Hnow, Hlat. apply Hiff'.
    assert (Heq : (d / (d + 1000) * (d + 1000) == d)%Q)
      by (field; lra).
    set (u := (d / (d + 1000))%Q) in *. nra.
  - rewrite Hnow, Hiff. change (SYSTEM_UPTIME_MINIMUM DECISION_THRESHOLDS) with 0.999%Q.
    assert (H999 : (999000 <= now - HelmarCEO.startTime this)%Z
                   <-> (inject_Z 999000 <= d)%Q)
      by (unfold d; rewrite <- Zle_Qle; reflexivity).
    rewrite H999. change (inject_Z 999000) with 999000%Q.
    split; intros; lra.
Qed.

Lemma uptime_grows_towards_one_witness :
  let this := @HelmarCEO.new Q _ 0 in
  (HelmarCEO.startTime this <= 999000)%Z /\
  (999000 <= 2000000)%Z /\
  let uptime t :=
    PerformanceMetrics.systemUptime (HelmarCEO.analyzePerformance this t t) in
  (uptime 999000%Z == inject_Z (999000 - HelmarCEO.startTime this)
                 / (inject_Z (999000 - HelmarCEO.startTime this) + 1000))%Q /\
  (uptime 999000%Z < 1)%Q /\
  (uptime 999000%Z <= uptime 2000000%Z)%Q /\
  ((SYSTEM_UPTIME_MINIMUM DECISION_THRESHOLDS <= uptime 999000%Z)%Q <->
   (999000 <= 999000 - HelmarCEO.startTime this)%Z).
Proof.
  intros this.
  assert (H1 : (HelmarCEO.startTime this <= 999000)%Z) by (simpl; lia).
  assert (H2 : (999000 <= 2000000)%Z) by lia.
  split; [exact H1|]. split; [exact H2|].
  exact (uptime_grows_towards_one this 999000 2000000 H1 H2).
Defined.

(** ** The tasks of the daily plan *)

(** Whatever identifiers and clock readings it draws, the task generator
    makes one task for each department the agent manages, in the order of
    its department map; each task is pending, addressed to the manager of
    its department, carries the identifier drawn for it, and is due
    between 12 and 48 hours after the clock reading it was made at. *)
Theorem one_pending_task_per_department {num} `{JsNumber num}
  (uuid : nat -> string) (now : nat -> Z) (now0 : Z) :
  let generated := @HelmarCEO.generateDepartmentTasks uuid now in
  (Department_literal ∘ DepartmentTask.department) <$> generated
  = fst <$> @HelmarCEO.initializeDepartments num _ now0 /\
  Forall (fun task => DepartmentTask.status task = pending) generated /\
  Forall (fun task =>
            DepartmentTask.assignedTo task
            = Department_literal (DepartmentTask.department task) +:+ "-manager")
         generated /\
  forall k task, generated !! k = Some task ->
    DepartmentTask.taskId task = uuid k /\
    (now k + 12 * 3600000 <= DepartmentTask.deadline task <= now k + 48 * 3600000)%Z.
Proof.
  intros generated. split; [reflexivity|].
  split; [repeat constructor|]. split; [repeat constructor|].
  intros k task Hk.
  do 4 (destruct k as [|k];
        [injection Hk as <-; cbn; unfold HelmarCEO.hours; split; [reflexivity | lia]|]).
  discriminate.
Qed.

(** ** The log of a management cycle *)

Lemma for_of_oracle {num} `{JsNumber num}
  (steps : @HelmarCEO.DepartmentSteps num) (result : string -> outcome unit) :
  (forall d s, HelmarCEO.runSteps steps d s = (s, result d)) ->
  forall names s,
    for_of names (HelmarCEO.manageDepartment steps) s
    = (logged s (flat_map (fun d => failure_records d (result d)) names),
       Returned tt).
Proof.
  intros Hsteps names. induction names as [|d names IH]; intros s.
  - cbn. unfold ret, logged. rewrite app_nil_r. by destruct s.
  - cbn [for_of flat_map]. unfold bind at 1.
    unfold HelmarCEO.manageDepartment, try_catch. rewrite Hsteps.
    destruct (result d) as [[]|err] eqn:Hr.
    + rewrite IH. cbn [failure_records app]. reflexivity.
    + rewrite onError_effect, IH. unfold logged. cbn.
      rewrite <- !app_assoc. reflexivity.
Qed.

(** When the steps of each department end the same way whatever the state
    and leave it alone, a management cycle changes nothing but the log: it
    adds its opening line and then, department by department in the
    order of the department map, the two error records of each department
    whose steps threw. *)
Theorem cycle_logs_failures_in_order {num} `{JsNumber num}
  (steps : @HelmarCEO.DepartmentSteps num) (result : string -> outcome unit)
  (s : HelmarCEO.t num) :
  (forall d s', HelmarCEO.runSteps steps d s' = (s', result d)) ->
  HelmarCEO.manageDepartmentsWith steps s
  = (logged s
       (Build_LogRecord info "Managing department operations..." None
        :: flat_map (fun d => failure_records d (result d))
                    (fst <$> HelmarCEO.departments s)),
     Returned tt).
Proof.
  intros Hsteps. unfold HelmarCEO.manageDepartmentsWith, bind at 1.
  unfold HelmarCEO.log at 1. cbv beta iota.
  rewrite (for_of_oracle steps result Hsteps). unfold logged. cbn.
  rewrite <- app_assoc. reflexivity.
Qed.

Lemma cycle_logs_failures_in_order_witness :
  let result := fun d : string =>
    if String.eqb d "production" then Thrown "no capacity" else Returned tt in
  let s := @HelmarCEO.new float _ 0 in
  (forall d s', HelmarCEO.runSteps throwing_steps d s' = (s', result d)) /\
  HelmarCEO.manageDepartmentsWith throwing_steps s
  = (logged s
       (Build_LogRecord info "Managing department operations..." None
        :: flat_map (fun d => failure_records d (result d))
                    (fst <$> HelmarCEO.departments s)),
     Returned tt).
Proof.
  intros result s.
  assert (Hsteps : forall d s', HelmarCEO.runSteps throwing_steps d s' = (s', result d)).
  { intros d s'. unfold HelmarCEO.runSteps, throwing_steps, result, bind, ret. cbn.
    destruct (String.eqb d "production"); reflexivity. }
  split; [exact Hsteps|].
  exact (cycle_logs_failures_in_order throwing_steps result s Hsteps).
Defined.

(** ** The Content Manager, continued *)

Section ManagerInvariants.
Context {num : Type} `{JsNumber num}.
Import ContentManager.

Implicit Types (w : Runtime num) (e : Event) (es : list Event) (task r : ref).

Lemma set_status_twice (a b : TaskStatus) (o : DepartmentTask.t) :
  DepartmentTask.set_status a (DepartmentTask.set_status b o)
  = DepartmentTask.set_status a o.
Proof. reflexivity. Qed.

Lemma overwritten_twice (a b : option TaskStatus) (o : DepartmentTask.t) :
  overwritten a (overwritten b o)
  = overwritten (match a with Some st => Some st | None => b end) o.
Proof. destruct a, b; reflexivity. Qed.

(** A step writes the task it ends and no other. *)
Lemma step_tasks w e w' r :
  step w e = Some w' ->
  tasks w' !! r = overwritten (ending_of e r) <$> tasks w !! r.
Proof.
  destruct e as [task|task now|task]; cbn [step ending_of].
  - intros Hr. apply receiveTask_effect in Hr as (-> & _).
    by destruct (tasks w !! r).
  - unfold processTask_returned.
    destruct (remove_first task (processing w)); [|discriminate].
    destruct (tasks w !! task) as [o|] eqn:Ho; [|discriminate].
    intros [= <-]. cbn [tasks]. destruct (decide (task = r)) as [->|Hne].
    + rewrite list_lookup_insert_eq by (by eapply lookup_lt_Some).
      by rewrite Ho.
    + rewrite list_lookup_insert_ne by done. by destruct (tasks w !! r).
  - unfold processTask_threw.
    destruct (remove_first task (processing w)); [|discriminate].
    destruct (tasks w !! task) as [o|] eqn:Ho; [|discriminate].
    intros [= <-]. cbn [tasks]. destruct (decide (task = r)) as [->|Hne].
    + rewrite list_lookup_insert_eq by (by eapply lookup_lt_Some).
      by rewrite Ho.
    + rewrite list_lookup_insert_ne by done. by destruct (tasks w !! r).
Qed.

Lemma run_tasks w es w' r :
  run w es = Some w' ->
  tasks w' !! r = overwritten (last_ending es r) <$> tasks w !! r.
Proof.
  revert w. induction es as [|e es IH]; intros w; cbn [run last_ending].
  - intros [= <-]. by destruct (tasks w !! r).
  - destruct (step w e) as [w1|] eqn:Hstep; [|discriminate].
    intros Hrun. rewrite (IH _ Hrun), (step_tasks _ _ _ r Hstep).
    destruct (tasks w !! r) as [o|]; [|reflexivity].
    cbn. by rewrite overwritten_twice.
Qed.

(** The manager writes nothing of a task but its status, and only when
    the processing of that task ends: after any history every task object
    is the object it was at the start with, if its processing has ended
    at least once, the status of the latest ending ('completed' if the
    body returned, 'blocked' if it threw) written over. *)
Theorem task_status_is_latest_ending (objects : list DepartmentTask.t) (now0 : Z)
  es w r :
  run (start objects now0) es = Some w ->
  tasks w !! r = overwritten (last_ending es r) <$> objects !! r /\
  length (tasks w) = length objects.
Proof.
  intros Hrun. split; [exact (run_tasks _ _ _ r Hrun)|].
  assert (Hlen : forall k, tasks w !! k = None <-> objects !! k = None).
  { intros k. rewrite (run_tasks _ _ _ k Hrun). cbn [tasks start].
    by destruct (objects !! k). }
  destruct (Nat.lt_trichotomy (length (tasks w)) (length objects)) as [Hlt|[Heq|Hgt]];
    [|exact Heq|].
  - pose proof (proj1 (Hlen (length (tasks w))) (lookup_ge_None_2 _ _ (Nat.le_refl _))) as Hn.
    apply lookup_ge_None in Hn. lia.
  - pose proof (proj2 (Hlen (length objects)) (lookup_ge_None_2 _ _ (Nat.le_refl _))) as Hn.
    apply lookup_ge_None in Hn. lia.
Qed.

Lemma remove_first_other task r (xs rest : list ref) :
  remove_first task xs = Some rest -> r <> task -> r ∈ xs -> r ∈ rest.
Proof.
  revert rest. induction xs as [|y xs IH]; intros rest; cbn [remove_first];
    [discriminate|].
  destruct (decide (task = y)) as [->|Hne].
  - intros [= ->] Hr Hin. apply elem_of_cons in Hin as [->|Hin]; done.
  - destruct (remove_first task xs) as [r'|]; [|discriminate].
    intros [= <-] Hr Hin. apply elem_of_cons in Hin as [->|Hin].
    + apply elem_of_cons. by left.
    + apply elem_of_cons. right. by apply IH.
Qed.

Lemma unfinished_after_ending (objects : list DepartmentTask.t) task r o st :
  objects !! task = Some o ->
  st = completed \/ st = blocked ->
  unfinished (<[task := DepartmentTask.set_status st o]> objects) r
  = if decide (task = r) then false else unfinished objects r.
Proof.
  intros Ho Hst. unfold unfinished. destruct (decide (task = r)) as [->|Hne].
  - rewrite list_lookup_insert_eq by (by eapply lookup_lt_Some).
    by destruct Hst as [-> | ->].
  - by rewrite list_lookup_insert_ne.
Qed.

Lemma step_settled_or_running w e w' :
  step w e = Some w' -> settled_or_running w -> settled_or_running w'.
Proof.
  unfold settled_or_running.
  destruct e as [task|task now|task]; cbn [step].
  - intros Hr HJ. apply receiveTask_effect in Hr as (Ht & Hc & Hp & _).
    intros r. rewrite Hc, Hp, Ht, !elem_of_app. intros [Hin | Hin].
    + destruct (HJ r Hin); auto.
    + auto.
  - unfold processTask_returned.
    destruct (remove_first task (processing w)) as [rest|] eqn:Hrm; [|discriminate].
    destruct (tasks w !! task) as [o|] eqn:Ho; [|discriminate].
    intros [= <-] HJ r. cbn. intros Hin.
    rewrite (unfinished_after_ending _ _ _ _ completed Ho) by auto.
    destruct (decide (task = r)) as [->|Hne]; [by right|].
    destruct (HJ r Hin) as [Hp | Hu]; [left | by right].
    eapply remove_first_other; eauto.
  - unfold processTask_threw.
    destruct (remove_first task (processing w)) as [rest|] eqn:Hrm; [|discriminate].
    destruct (tasks w !! task) as [o|] eqn:Ho; [|discriminate].
    intros [= <-] HJ r. cbn. intros Hin.
    rewrite (unfinished_after_ending _ _ _ _ blocked Ho) by auto.
    destruct (decide (task = r)) as [->|Hne]; [by right|].
    destruct (HJ r Hin) as [Hp | Hu]; [left | by right].
    eapply remove_first_other; eauto.
Qed.

Lemma run_settled_or_running w es w' :
  run w es = Some w' -> settled_or_running w -> settled_or_running w'.
Proof.
  revert w. induction es as [|e es IH]; intros w; cbn [run].
  - by intros [= <-].
  - destruct (step w e) as [w1|] eqn:Hstep; [|discriminate].
    intros Hrun HJ. eapply IH; [exact Hrun|]. by eapply step_settled_or_running.
Qed.

(** The manager is 'online' again as soon as it completes a task and has
    nothing left in processing, however many tasks it holds by then. *)
Theorem online_after_last_completion (objects : list DepartmentTask.t) (now0 : Z)
  es task now w :
  run (start objects now0) (es ++ [BodyReturned task now]) = Some w ->
  processing w = [] ->
  status (this w) = online.
Proof.
  intros Hrun Hempty.
  assert (HJ : settled_or_running w).
  { eapply run_settled_or_running; [exact Hrun|]. intros r Hin. by inversion Hin. }
  rewrite run_app in Hrun.
  destruct (run (start objects now0) es) as [w0|]; [|discriminate].
  cbn [run step] in Hrun.
  destruct (processTask_returned task now w0) as [w1|] eqn:Hstep; [|discriminate].
  injection Hrun as <-.
  unfold processTask_returned in Hstep.
  destruct (remove_first task (processing w0)) as [rest|]; [|discriminate].
  destruct (tasks w0 !! task) as [o|]; [|discriminate].
  injection Hstep as <-. cbn in *. subst rest.
  set (objects' := <[task := DepartmentTask.set_status completed o]> (tasks w0)) in *.
  assert (Hnone : List.filter (unfinished objects') (currentTasks (this w0)) = []).
  { unfold settled_or_running in HJ. cbn in HJ.
    induction (currentTasks (this w0)) as [|r rs IH]; [reflexivity|].
    cbn [List.filter].
    destruct (HJ r) as [Hin | ->]; [by left | by inversion Hin |].
    apply IH. intros r' Hr'. apply HJ. by right. }
  rewrite Hnone. reflexivity.
Qed.

Lemma step_busy w e w' :
  step w e = Some w' ->
  (status (this w) = busy -> 5 < length (currentTasks (this w))) ->
  status (this w') = busy -> 5 < length (currentTasks (this w')).
Proof.
  destruct e as [task|task now|task]; cbn [step].
  - intros Hr Hinv. apply receiveTask_effect in Hr as (_ & Hc & _ & Hs).
    rewrite Hs, Hc. destruct (Nat.ltb_spec 5 (length (currentTasks (this w) ++ [task])));
      [done|]. intros Hb. specialize (Hinv Hb). rewrite length_app. lia.
  - unfold processTask_returned.
    destruct (remove_first task (processing w)); [|discriminate].
    destruct (tasks w !! task); [|discriminate].
    intros [= <-] Hinv. cbn. destruct (_ =? 0)%nat; [discriminate | exact Hinv].
  - unfold processTask_threw.
    destruct (remove_first task (processing w)); [|discriminate].
    destruct (tasks w !! task); [|discriminate].
    intros [= <-] Hinv. exact Hinv.
Qed.

(** A manager is 'busy' only under load: whenever its status is 'busy' it
    has received more than five tasks. *)
Theorem busy_only_beyond_five_tasks (objects : list DepartmentTask.t) (now0 : Z)
  es w :
  run (start objects now0) es = Some w ->
  status (this w) = busy ->
  5 < length (currentTasks (this w)) /\ 5 < length (received es).
Proof.
  intros Hrun Hb.
  assert (Hgen : forall w0, run w0 es = Some w ->
            (status (this w0) = busy -> 5 < length (currentTasks (this w0))) ->
            status (this w) = busy -> 5 < length (currentTasks (this w))).
  { clear. induction es as [|e es IH]; intros w0; cbn [run].
    - by intros [= <-].
    - destruct (step w0 e) as [w1|] eqn:Hstep; [|discriminate].
      intros Hrun Hinv. eapply IH; [exact Hrun|]. by eapply step_busy. }
  assert (Hlen : 5 < length (currentTasks (this w))).
  { eapply Hgen; [exact Hrun | discriminate | exact Hb]. }
  split; [exact Hlen|].
  destruct (run_queue _ _ _ Hrun) as (Hc & _). cbn in Hc. by rewrite <- Hc.
Qed.

Lemma step_refs_valid w e w' :
  step w e = Some w' ->
  Forall (fun r => r < length (tasks w)) (currentTasks (this w)) ->
  Forall (fun r => r < length (tasks w')) (currentTasks (this w')).
Proof.
  intros Hstep Hall.
  assert (Hlen : length (tasks w') = length (tasks w)).
  { destruct e as [task|task now|task]; cbn [step] in Hstep.
    - apply receiveTask_effect in Hstep as (-> & _). reflexivity.
    - unfold processTask_returned in Hstep.
      destruct (remove_first task (processing w)); [|discriminate].
      destruct (tasks w !! task); [|discriminate].
      injection Hstep as <-. cbn. apply length_insert.
    - unfold processTask_threw in Hstep.
      destruct (remove_first task (processing w)); [|discriminate].
      destruct (tasks w !! task); [|discriminate].
      injection Hstep as <-. cbn. apply length_insert. }
  rewrite Hlen. destruct (step_queue _ _ _ Hstep) as (Hc & _). rewrite Hc.
  apply Forall_app. split; [exact Hall|].
  destruct e as [task|task now|task]; cbn; try constructor; [|constructor].
  cbn [step] in Hstep. unfold receiveTask in Hstep.
  destruct (tasks w !! task) eqn:Ho; [|discriminate]. by eapply lookup_lt_Some.
Qed.

Lemma run_refs_valid w es w' :
  run w es = Some w' ->
  Forall (fun r => r < length (tasks w)) (currentTasks (this w)) ->
  Forall (fun r => r < length (tasks w')) (currentTasks (this w')).
Proof.
  revert w. induction es as [|e es IH]; intros w; cbn [run].
  - by intros [= <-].
  - destruct (step w e) as [w1|] eqn:Hstep; [|discriminate].
    intros Hrun Hall. eapply IH; [exact Hrun|]. by eapply step_refs_valid.
Qed.

(** [getStatus] reports every task the manager ever received, none lost
    and none added, in the order of arrival, each as the object it was
    handed with the status of its latest ending. *)
Theorem getStatus_lists_every_received_task (objects : list DepartmentTask.t)
  (now0 : Z) es w :
  run (start objects now0) es = Some w ->
  let reported := DepartmentManager.currentTasks (getStatus w) in
  length reported = length (received es) /\
  forall k r, received es !! k = Some r ->
    exists o, objects !! r = Some o /\
              reported !! k = Some (overwritten (last_ending es r) o).
Proof.
  intros Hrun reported.
  destruct (run_queue _ _ _ Hrun) as (Hc & _). cbn in Hc.
  pose proof (run_refs_valid _ _ _ Hrun (Forall_nil_2 _)) as Hvalid.
  rewrite Hc in Hvalid.
  assert (Hrep : reported = omap (fun r => tasks w !! r) (received es))
    by (unfold reported, getStatus; cbn; by rewrite Hc).
  clearbody reported. subst reported.
  assert (Hfull : forall rs, Forall (fun r => r < length (tasks w)) rs ->
            Forall2 (fun r o' => exists o, objects !! r = Some o /\
                                           o' = overwritten (last_ending es r) o)
                    rs (omap (fun r => tasks w !! r) rs)).
  { induction 1 as [|r rs Hr Hrs IH]; [constructor|].
    cbn [omap list_omap].
    destruct (tasks w !! r) as [o'|] eqn:Ho'.
    - constructor; [|exact IH].
      rewrite (run_tasks _ _ _ r Hrun) in Ho'. cbn [tasks start] in Ho'.
      destruct (objects !! r) as [o|]; [|discriminate].
      exists o. split; [reflexivity|]. cbn in Ho'. congruence.
    - apply lookup_ge_None in Ho'. lia. }
  specialize (Hfull _ Hvalid). split.
  - symmetry. by eapply Forall2_length.
  - intros k r Hk.
    destruct (Forall2_lookup_l _ _ _ _ _ Hfull Hk) as (o' & Hk' & o & Ho & ->).
    eauto.
Qed.

End ManagerInvariants.

Section ManagerRuns.
Import ContentManager.

Lemma online_after_last_completion_witness :
  exists w : Runtime float,
    run (start sample_tasks 0)
        ((Receive <$> [0; 1; 0; 1; 0; 1; 0]%nat)
         ++ (BodyThrew <$> [0; 1; 0; 1; 0; 1]%nat)
         ++ [BodyReturned 0 90]) = Some w /\
    processing w = [] /\
    status (this w) = online.
Proof.
  eexists. split; [vm_compute; reflexivity|]. split; [reflexivity|].
  refine (online_after_last_completion sample_tasks 0
            ((Receive <$> [0; 1; 0; 1; 0; 1; 0]%nat)
             ++ (BodyThrew <$> [0; 1; 0; 1; 0; 1]%nat)) 0%nat 90 _ _ _).
  - rewrite <- app_assoc. vm_compute. reflexivity.
  - reflexivity.
Defined.

Lemma busy_only_beyond_five_tasks_witness :
  exists w : Runtime float,
    run (start sample_tasks 0) (Receive <$> [0; 1; 0; 1; 0; 1]%nat) = Some w /\
    status (this w) = busy /\
    5 < length (currentTasks (this w)) /\
    5 < length (received (Receive <$> [0; 1; 0; 1; 0; 1]%nat)).
Proof.
  eexists. split; [vm_compute; reflexivity|]. split; [reflexivity|].
  refine (busy_only_beyond_five_tasks sample_tasks 0
            (Receive <$> [0; 1; 0; 1; 0; 1]%nat) _ _ _).
  - vm_compute. reflexivity.
  - reflexivity.
Defined.

Lemma getStatus_lists_every_received_task_witness :
  exists w : Runtime float,
    run (start sample_tasks 0) [Receive 1; Receive 0; BodyThrew 1; BodyReturned 0 7]
    = Some w /\
    let es := [Receive 1; Receive 0; BodyThrew 1; BodyReturned 0 7] in
    let reported := DepartmentManager.currentTasks (getStatus w) in
    length reported = length (received es) /\
    forall k r, received es !! k = Some r ->
      exists o, sample_tasks !! r = Some o /\
                reported !! k = Some (overwritten (last_ending es r) o).
Proof.
  eexists. split; [vm_compute; reflexivity|].
  refine (getStatus_lists_every_received_task sample_tasks 0
            [Receive 1; Receive 0; BodyThrew 1; BodyReturned 0 7] _ _).
  vm_compute. reflexivity.
Defined.

Lemma task_status_is_latest_ending_witness :
  exists w : Runtime float,
    run (start sample_tasks 0)
        [Receive 1; BodyThrew 1; Receive 1; BodyReturned 1 7] = Some w /\
    tasks w !! 1%nat
    = overwritten (last_ending [Receive 1; BodyThrew 1; Receive 1; BodyReturned 1 7] 1%nat)
        <$> sample_tasks !! 1%nat /\
    length (tasks w) = length sample_tasks.
Proof.
  eexists. split; [vm_compute; reflexivity|].
  refine (task_status_is_latest_ending sample_tasks 0
            [Receive 1; BodyThrew 1; Receive 1; BodyReturned 1 7] _ 1%nat _).
  vm_compute. reflexivity.
Defined.

End ManagerRuns.

(** ** Counters of the Content Manager *)

Section Counters.
Import ContentManager.

Implicit Types (w : Runtime Q) (es : list Event).

Local Abbreviation count xs := (inject_Z (Z.of_nat (length xs))).

Lemma ratio_in_unit_interval (c t : Q) :
  (0 <= c)%Q -> (c <= t)%Q -> (0 < t)%Q -> (0 <= c / t <= 1)%Q.
Proof.
  intros Hc Hct Ht. split.
  - apply Qle_shift_div_l; lra.
  - apply Qle_shift_div_r; lra.
Qed.

Lemma count_nonneg {A} (xs : list A) : (0 <= count xs)%Q.
Proof. change 0%Q with (inject_Z 0). rewrite <- Zle_Qle. lia. Qed.

Lemma count_le {A B} (xs : list A) (ys : list B) :
  length xs <= length ys -> (count xs <= count ys)%Q.
Proof. intros Hle. rewrite <- Zle_Qle. lia. Qed.

Lemma successRate_bounds (objects : list DepartmentTask.t) (now0 : Z) es :
  forall w, run (start objects now0) es = Some w ->
  (0 <= PerformanceMetrics.successRate (performance (this w)) <= 1)%Q.
Proof.
  induction es as [|e es IH] using rev_ind; intros w Hrun.
  - injection Hrun as <-. cbn. lra.
  - pose proof (run_counters _ _ _ Hrun) as (Ht & Hc & Hp).
    assert (Hle : (count (returned (es ++ [e])) <= count (received (es ++ [e])))%Q).
    { apply count_le. cbn in Hp. lia. }
    pose proof (count_nonneg (returned (es ++ [e]))) as Hnn.
    clear Hp.
    rewrite run_app in Hrun.
    destruct (run (start objects now0) es) as [w0|] eqn:Hrun0; [|discriminate].
    specialize (IH w0 eq_refl).
    cbn [run] in Hrun. destruct (step w0 e) as [w1|] eqn:Hstep; [|discriminate].
    injection Hrun as <-.
    destruct e as [task|task now|task]; cbn [step] in Hstep.
    + unfold receiveTask in Hstep. destruct (tasks w0 !! task); [|discriminate].
      injection Hstep as <-. exact IH.
    + assert (Hpos : (0 < count (received (es ++ [BodyReturned task now])))%Q).
      { assert (Hone : (1 <= count (returned (es ++ [BodyReturned task now])))%Q).
        { rewrite returned_snoc, length_app. cbn [length].
          change 1%Q with (inject_Z 1). rewrite <- Zle_Qle. lia. }
        lra. }
      unfold processTask_returned in Hstep.
      destruct (remove_first task (processing w0)); [|discriminate].
      destruct (tasks w0 !! task); [|discriminate].
      injection Hstep as <-. cbn in Ht, Hc |- *.
      apply ratio_in_unit_interval; [rewrite Hc | rewrite Hc, Ht | rewrite Ht]; lra.
    + unfold processTask_threw in Hstep.
      destruct (remove_first task (processing w0)); [|discriminate].
      destruct (tasks w0 !! task); [|discriminate].
      injection Hstep as <-. exact IH.
Qed.

(** The counters of the manager count: after any history [tasksTotal] is
    the number of tasks received (the length of [currentTasks]),
    [tasksCompleted] the number of bodies that returned, every task
    received is being processed, completed or failed, so that completed
    never exceeds total, and the stored success rate lies in [0, 1]. *)
Theorem counters_count (objects : list DepartmentTask.t) (now0 : Z) es w :
  run (start objects now0) es = Some w ->
  let p := performance (this w) in
  (PerformanceMetrics.tasksTotal p == count (received es))%Q /\
  (PerformanceMetrics.tasksTotal p == count (currentTasks (this w)))%Q /\
  (PerformanceMetrics.tasksCompleted p == count (returned es))%Q /\
  (length (processing w) + length (returned es) + length (threw es)
   = length (received es))%nat /\
  (PerformanceMetrics.tasksCompleted p <= PerformanceMetrics.tasksTotal p)%Q /\
  (0 <= PerformanceMetrics.successRate p <= 1)%Q.
Proof.
  intros Hrun p.
  pose proof (run_counters _ _ _ Hrun) as (Ht & Hc & Hp).
  destruct (run_queue _ _ _ Hrun) as (Hq & _).
  cbn in Ht, Hc, Hp, Hq. fold p in Ht, Hc.
  split; [rewrite Ht; lra|]. split; [rewrite Ht, Hq; lra|].
  split; [rewrite Hc; lra|]. split; [exact Hp|]. split.
  - rewrite Ht, Hc.
    pose proof (count_le (returned es) (received es) ltac:(lia)). lra.
  - by eapply successRate_bounds.
Qed.

End Counters.

Section CounterRuns.
Import ContentManager.

Lemma counters_count_witness :
  exists w : Runtime Q,
    run (start sample_tasks 0)
        [Receive 0; Receive 1; BodyReturned 1 5; Receive 0; BodyThrew 0] = Some w /\
    let es := [Receive 0; Receive 1; BodyReturned 1 5; Receive 0; BodyThrew 0] in
    let p := performance (this w) in
    (PerformanceMetrics.tasksTotal p
     == inject_Z (Z.of_nat (length (received es))))%Q /\
    (PerformanceMetrics.tasksTotal p
     == inject_Z (Z.of_nat (length (currentTasks (this w)))))%Q /\
    (PerformanceMetrics.tasksCompleted p
     == inject_Z (Z.of_nat (length (returned es))))%Q /\
    (length (processing w) + length (returned es) + length (threw es)
     = length (received es))%nat /\
    (PerformanceMetrics.tasksCompleted p <= PerformanceMetrics.tasksTotal p)%Q /\
    (0 <= PerformanceMetrics.successRate p <= 1)%Q.
Proof.
  eexists. split; [vm_compute; reflexivity|].
  refine (counters_count sample_tasks 0
            [Receive 0; Receive 1; BodyReturned 1 5; Receive 0; BodyThrew 0] _ _).
  vm_compute. reflexivity.
Defined.

End CounterRuns.

(** ** The task bodies *)

Section Bodies.
Context {num : Type} `{JsNumber num} `{JsFloor num}.
Import ContentBodies.

Implicit Types (f : Fields num) (t : Turn num) (ts : list (Turn num)).

(** Whatever number is drawn, the choice is an element of the list or
    [undefined]. *)
Lemma pick_elem_of {A} (xs : list A) (r : num) (x : A) :
  pick xs r = Some x -> x ∈ xs.
Proof.
  unfold pick. destruct (array_index _) as [k|]; [|discriminate].
  apply list_elem_of_lookup_2.
Qed.

Lemma turns_app f ts1 ts2 :
  turns f (ts1 ++ ts2) = turns (turns f ts1) ts2.
Proof. apply foldl_app. Qed.

Lemma turns_buffer ts :
  forall f, contentBuffer (turns f ts) = contentBuffer f ++ pushed ts.
Proof.
  induction ts as [|t ts IH]; intros f; cbn [turns foldl].
  - by rewrite app_nil_r.
  - change (foldl turn (turn f t) ts) with (turns (turn f t) ts). rewrite IH.
    destruct t; cbn; rewrite <- ?app_assoc; reflexivity.
Qed.

(** The content buffer is only ever appended to: however the turns of the
    task bodies are scheduled, the buffer afterwards is the buffer before
    followed by one post for each turn of a post loop, in the order the
    turns ran; no other body touches it. *)
Theorem buffer_append_only f ts :
  contentBuffer (turns f ts) = contentBuffer f ++ pushed ts /\
  contentBuffer f `prefix_of` contentBuffer (turns f ts) /\
  length (contentBuffer (turns f ts))
  = length (contentBuffer f) + length (pushed ts).
Proof.
  rewrite turns_buffer. split; [reflexivity|].
  split; [by apply prefix_app_r | by rewrite length_app].
Qed.

Lemma posts_loop (rand : nat -> num) (count start : nat) f :
  let f' := turns f ((fun i => PostTurn i (rand i)) <$> seq start count) in
  contentBuffer f'
  = contentBuffer f ++ ((fun i => post i (pick postTemplates (rand i))) <$> seq start count) /\
  postsCreated f' = postsCreated f /\ engagement f' = engagement f /\
  reach f' = reach f /\ conversions f' = conversions f.
Proof.
  revert start f. induction count as [|count IH]; intros start f; cbn [seq fmap list_fmap].
  - cbn. by rewrite app_nil_r.
  - cbn [turns foldl].
    change (foldl turn ?g ?l) with (turns g l).
    destruct (IH (S start) (turn f (PostTurn start (rand start))))
      as (Hb & Hp & He & Hr & Hc).
    cbv zeta in *. rewrite Hb, Hp, He, Hr, Hc. cbn. rewrite <- app_assoc. auto.
Qed.

(** A call [createSocialMediaPosts(count)] that runs undisturbed appends
    exactly [count] posts, numbered 1 to [count] in order, the i-th
    carrying the template its own draw selects; whatever the draws, that
    is one of the five templates or the text of [undefined].  The call
    adds [count] to the counter of posts created and changes nothing
    else. *)
Theorem createSocialMediaPosts_appends_count
  (count : nat) (rand : nat -> num) f :
  let f' := turns f (createSocialMediaPosts count rand) in
  length (contentBuffer f') = length (contentBuffer f) + count /\
  (forall i, i < count ->
     contentBuffer f' !! (length (contentBuffer f) + i)
     = Some (post i (pick postTemplates (rand i))) /\
     exists template,
       (template ∈ postTemplates \/ template = "undefined") /\
       contentBuffer f' !! (length (contentBuffer f) + i)
       = Some ("Post " +:+ pretty (i + 1) +:+ ": " +:+ template)) /\
  postsCreated f' = (postsCreated f + of_nat count)%js /\
  engagement f' = engagement f /\ reach f' = reach f /\
  conversions f' = conversions f.
Proof.
  intros f'. unfold f', createSocialMediaPosts.
  rewrite turns_app.
  destruct (posts_loop rand count 0 f) as (Hb & Hp & He & Hr & Hc).
  cbv zeta in Hb, Hp, He, Hr, Hc.
  set (g := turns f _) in *. cbn [turns foldl turn contentBuffer postsCreated
                                  engagement reach conversions].
  rewrite Hb, Hp, He, Hr, Hc.
  split; [by rewrite length_app, length_fmap, length_seq|].
  split; [|by repeat split].
  intros i Hi.
  assert (Hi' : (contentBuffer f
                 ++ ((fun i => post i (pick postTemplates (rand i))) <$> seq 0 count))
                !! (length (contentBuffer f) + i)
                = Some (post i (pick postTemplates (rand i)))).
  { rewrite lookup_app_r by lia.
    replace (length (contentBuffer f) + i - length (contentBuffer f)) with i by lia.
    by rewrite list_lookup_fmap, lookup_seq_lt by lia. }
  split; [exact Hi'|]. rewrite Hi'. unfold post.
  destruct (pick postTemplates (rand i)) as [template|] eqn:Hpick.
  - exists template. split; [left; by eapply pick_elem_of | reflexivity].
  - exists "undefined". split; [by right | reflexivity].
Qed.

Lemma turns_counters ts :
  forall f,
    engagement (turns f ts)
    = foldl (fun acc r => (acc + r * lit 0.02)%js) (engagement f) (gains ts) /\
    postsCreated (turns f ts)
    = foldl (fun acc count => (acc + of_nat count)%js) (postsCreated f) (counts ts) /\
    reach (turns f ts) = reach f /\
    conversions (turns f ts) = conversions f.
Proof.
  induction ts as [|t ts IH]; intros f; cbn [turns foldl].
  - cbn. auto.
  - change (foldl turn (turn f t) ts) with (turns (turn f t) ts).
    destruct (IH (turn f t)) as (He & Hp & Hr & Hc).
    rewrite He, Hp, Hr, Hc. destruct t; cbn; auto.
Qed.

(** Of the counters of [performanceMetrics], engagement is written by
    [optimizeContent] alone and the counter of posts by the end of a post
    loop alone: after any schedule of turns, engagement is the old value
    with the gain [r * 0.02] of each [optimizeContent] draw added in the
    order the calls ran, in the arithmetic of the program; the counter of
    posts is the old value with the counts of the finished loops added in
    order; [reach] and [conversions] are never written. *)
Theorem engagement_adds_the_gains_in_order f ts :
  engagement (turns f ts)
  = foldl (fun acc r => (acc + r * lit 0.02)%js) (engagement f) (gains ts) /\
  postsCreated (turns f ts)
  = foldl (fun acc count => (acc + of_nat count)%js) (postsCreated f) (counts ts) /\
  reach (turns f ts) = reach f /\
  conversions (turns f ts) = conversions f /\
  (gains ts = [] -> engagement (turns f ts) = engagement f).
Proof.
  destruct (turns_counters ts f) as (He & Hp & Hr & Hc).
  repeat (split; [assumption|]).
  intros Hg. by rewrite He, Hg.
Qed.

End Bodies.

Section BodiesContinued.
Import ContentBodies.

Lemma createSocialMediaPosts_appends_count_witness :
  let rand := fun _ : nat => 0.6%float in
  let f := @ContentBodies.new float _ in
  let f' := turns f (createSocialMediaPosts 10 rand) in
  3 < 10 /\
  length (contentBuffer f') = length (contentBuffer f) + 10 /\
  (contentBuffer f' !! (length (contentBuffer f) + 3)
   = Some (post 3 (pick postTemplates (rand 3))) /\
   exists template,
     (template ∈ postTemplates \/ template = "undefined") /\
     contentBuffer f' !! (length (contentBuffer f) + 3)
     = Some ("Post " +:+ pretty (3 + 1) +:+ ": " +:+ template)) /\
  postsCreated f' = (postsCreated f + of_nat 10)%js /\
  engagement f' = engagement f /\ reach f' = reach f /\
  conversions f' = conversions f.
Proof.
  intros rand f f'.
  assert (H3 : 3 < 10) by lia.
  destruct (createSocialMediaPosts_appends_count 10 rand f)
    as (Hlen & Hposts & Hrest).
  split; [exact H3|]. split; [exact Hlen|].
  split; [exact (Hposts 3 H3) | exact Hrest].
Defined.

Lemma engagement_adds_the_gains_in_order_witness :
  let f := @ContentBodies.new float _ in
  let ts := [HandleGenericTask; PostsDone 10; AnalyzeCompetitors 0.3%float] in
  gains ts = [] /\ engagement (turns f ts) = engagement f.
Proof.
  intros f ts.
  assert (Hg : gains ts = []) by reflexivity.
  split; [exact Hg|].
  destruct (engagement_adds_the_gains_in_order f ts) as (_ & _ & _ & _ & Hkept).
  exact (Hkept Hg).
Defined.

(** The index is the floor of the product as the program computes it.
    The double written 0.6 is 5404319552844595 / 2^53, a little under
    3/5: in binary64 its product with 5 rounds to 3 and selects the fourth
    template, where the exact product would select the third.  The
    largest double under 1 still selects the fifth. *)
Lemma pick_rounds_in_binary64 :
  Prim2SF 0.6%float = S754_finite false 5404319552844595 (-53) /\
  pick postTemplates 0.6%float = postTemplates !! 3%nat /\
  pick postTemplates (5404319552844595 # 9007199254740992)%Q
  = postTemplates !! 2%nat /\
  Prim2SF 0.99999999999999989%float
  = S754_finite false 9007199254740991 (-53) /\
  pick postTemplates 0.99999999999999989%float = postTemplates !! 4%nat.
Proof. repeat split; vm_compute; reflexivity. Qed.

(** One [optimizeContent] call on a new manager with draw 0.7, in
    binary64. *)
Lemma engagement_binary64 :
  engagement (turns (@ContentBodies.new float _) [OptimizeContent 0.1%float 0.7%float])
  = 0.013999999999999999%float.
Proof. vm_compute. reflexivity. Qed.

(** [processTask] chooses the body by the whole description, letter case
    aside: a task is handled generically exactly when its description is
    none of the three known phrases.  Of the four tasks the CEO generates
    for the daily plan, the content task is thereby routed to
    [createSocialMediaPosts(10)] and the other three to the generic body. *)
Theorem bodies_by_description (task : DepartmentTask.t)
  (uuid : nat -> string) (now : nat -> Z) :
  (bodyOf task = Generic <->
   toLowerCase (DepartmentTask.description task) <> "create 10+ social media posts" /\
   toLowerCase (DepartmentTask.description task) <> "optimize content for engagement" /\
   toLowerCase (DepartmentTask.description task) <> "analyze competitor content") /\
  (bodyOf task = CreateSocialMediaPosts 10 <->
   toLowerCase (DepartmentTask.description task) = "create 10+ social media posts") /\
  bodyOf <$> HelmarCEO.generateDepartmentTasks uuid now
  = [CreateSocialMediaPosts 10; Generic; Generic; Generic].
Proof.
  unfold bodyOf. split; [|split; [|reflexivity]].
  - destruct (String.eqb_spec (toLowerCase (DepartmentTask.description task))
                "create 10+ social media posts") as [->|H1];
      [split; [discriminate | intros (Hn & _); done]|].
    destruct (String.eqb_spec (toLowerCase (DepartmentTask.description task))
                "optimize content for engagement") as [->|H2];
      [split; [discriminate | intros (_ & Hn & _); done]|].
    destruct (String.eqb_spec (toLowerCase (DepartmentTask.description task))
                "analyze competitor content") as [->|H3];
      [split; [discriminate | intros (_ & _ & Hn); done]|].
    split; [done | reflexivity].
  - destruct (String.eqb_spec (toLowerCase (DepartmentTask.description task))
                "create 10+ social media posts") as [->|H1]; [done|].
    split; [|done].
    destruct (String.eqb _ "optimize content for engagement"); [discriminate|].
    destruct (String.eqb _ "analyze competitor content"); discriminate.
Qed.

End BodiesContinued.

(** ** The orchestrator *)

Section OrchestratorFacts.
Context {num : Type} `{JsNumber num}.
Import Orchestrator.

Implicit Types (o : Orchestrator.t num) (e : Event) (es : list Event).

Lemma handle_isRunning o e :
  isRunning (handle o e) = default (isRunning o) (switches e).
Proof.
  destruct e; cbn [handle switches default]; try reflexivity;
    unfold scheduled; destruct (isRunning o) eqn:Hr; try reflexivity; cbn;
    try (destruct (_ <? _)%Z); cbn; auto.
Qed.

(** Only [start], the stop route and [shutdown] set the running flag: after
    any history it has the value the latest of them gave it, or its first
    value if there was none; no schedule and no other route restarts a
    stopped system or stops a running one. *)
Theorem running_flag_follows_switches o es o' :
  run o es = Some o' ->
  isRunning o' = running_after (isRunning o) es.
Proof.
  revert o. induction es as [|e es IH]; intros o; cbn [run running_after foldl].
  - by intros [= <-].
  - unfold step. destruct (exited o); [discriminate|].
    intros Hrun. rewrite (IH _ Hrun), handle_isRunning. reflexivity.
Qed.

(** While the system is stopped the schedules do nothing: any sequence of
    scheduled jobs leaves the orchestrator and its agent exactly as they
    were. *)
Theorem stopped_schedules_do_nothing o es :
  isRunning o = false -> exited o = false ->
  Forall (fun e => is_cron e = true) es ->
  run o es = Some o.
Proof.
  intros Hstop Hlive Hcron. induction Hcron as [|e es He _ IH]; [reflexivity|].
  cbn [run]. unfold step. rewrite Hlive.
  assert (Hsame : handle o e = o)
    by (destruct e; try discriminate He; cbn; unfold scheduled; by rewrite Hstop).
  rewrite Hsame. exact IH.
Qed.

(** The emergency stop does not reach the routes: a briefing requested
    over HTTP right after a stop is carried out all the same and its plan
    becomes the agent's daily plan. *)
Theorem stop_does_not_gate_the_routes o es o'
  (clock : nat -> Z) (uuid : nat -> string) :
  run o (es ++ [PostStop; PostBriefing clock uuid]) = Some o' ->
  isRunning o' = false /\
  HelmarCEO.dailyPlan (helmarAgent o') = Some (HelmarCEO.plan_of clock uuid).
Proof.
  revert o. induction es as [|e es IH]; intros o.
  - cbn [app run]. unfold step. destruct (exited o) eqn:Hx; [discriminate|].
    cbn. rewrite Hx. intros [= <-]. split; reflexivity.
  - cbn [app run]. destruct (step o e) as [o1|]; [apply IH | discriminate].
Qed.

End OrchestratorFacts.

Section OrchestratorRuns.
Import Orchestrator.

Lemma running_flag_follows_switches_witness :
  let es := [ Start (fun k => Z.of_nat k) (fun _ => "id"); CronManage;
              PostStop; CronStrategic "id" "2025-01-01"; GetHealth ] in
  exists o' : Orchestrator.t float,
    run (new 0) es = Some o' /\
    isRunning o' = running_after (isRunning (@new float _ 0)) es.
Proof.
  intros es. eexists. split; [vm_compute; reflexivity|].
  refine (running_flag_follows_switches (new 0) es _ _).
  vm_compute. reflexivity.
Defined.

Lemma stopped_schedules_do_nothing_witness :
  let o : Orchestrator.t float := new 0 in
  let es := [ CronBriefing (fun k => Z.of_nat k) (fun _ => "id"); CronManage;
              CronStrategic "id" "2025-01-01"; CronReport 5 5 5 ] in
  isRunning o = false /\ exited o = false /\
  Forall (fun e => is_cron e = true) es /\
  run o es = Some o.
Proof.
  intros o es.
  assert (H1 : isRunning o = false) by reflexivity.
  assert (H2 : exited o = false) by reflexivity.
  assert (H3 : Forall (fun e => is_cron e = true) es) by (repeat constructor).
  split; [exact H1|]. split; [exact H2|]. split; [exact H3|].
  exact (stopped_schedules_do_nothing o es H1 H2 H3).
Defined.

Lemma stop_does_not_gate_the_routes_witness :
  let clock := fun k : nat => Z.of_nat k in
  let uuid := fun _ : nat => "id" in
  exists o' : Orchestrator.t float,
    run (new 0) ([Start clock uuid; CronManage] ++ [PostStop; PostBriefing clock uuid])
    = Some o' /\
    isRunning o' = false /\
    HelmarCEO.dailyPlan (helmarAgent o') = Some (HelmarCEO.plan_of clock uuid).
Proof.
  intros clock uuid. eexists. split; [vm_compute; reflexivity|].
  refine (stop_does_not_gate_the_routes (new 0) [Start clock uuid; CronManage] _
            clock uuid _).
  vm_compute. reflexivity.
Defined.

End OrchestratorRuns.
